(** * Verification of the modernization scripts

    Shallow embedding of [scripts/modernize/assess_codebase.py] and
    [scripts/modernize/create_refactor_issues.py], and the properties of
    their specification.

    Text is modelled as [string]: one [ascii] per character, ASCII text.
    The character classes below are Python's on that range. *)

From Stdlib Require Import String Ascii List Arith Bool Lia PeanoNat.
From Stdlib Require Import Permutation Sorted Decimal DecimalString.
Import ListNotations.
Local Open Scope list_scope.
Local Open Scope string_scope.
Local Open Scope nat_scope.

(** ** Python [str] primitives used by the scripts *)
Module PyStr.

Definition nl : ascii := "010"%char.
Definition NL : string := String nl "".
Definition dq : string := String "034"%char "".

Definition between (lo hi : nat) (a : ascii) : bool :=
  (lo <=? nat_of_ascii a) && (nat_of_ascii a <=? hi).

(** [str.isspace], and the class [\s] of [re]: tab..carriage return,
    the four separators 28..31 and the space. *)
Definition isspace (a : ascii) : bool := between 9 13 a || between 28 32 a.

(** The class [\d]. *)
Definition isdigit (a : ascii) : bool := between 48 57 a.

Definition isupper (a : ascii) : bool := between 65 90 a.
Definition islower (a : ascii) : bool := between 97 122 a.

(** The class [\w]: letters, digits and the underscore. *)
Definition isword (a : ascii) : bool :=
  isdigit a || isupper a || islower a || (nat_of_ascii a =? 95).

(** The class [.] without DOTALL, and with it. *)
Definition notnl (a : ascii) : bool := negb (Ascii.eqb a nl).
Definition anychar (_ : ascii) : bool := true.

(** The case of a letter of ASCII. Python maps letters outside ASCII
    too; here a character outside ASCII is left as it is. *)
Definition lower_char (a : ascii) : ascii :=
  if isupper a then ascii_of_nat (nat_of_ascii a + 32) else a.
Definition upper_char (a : ascii) : ascii :=
  if islower a then ascii_of_nat (nat_of_ascii a - 32) else a.

Fixpoint map_chars (f : ascii -> ascii) (s : string) : string :=
  match s with
  | "" => ""
  | String a s' => String (f a) (map_chars f s')
  end.

(** [s.lower()] and [s.upper()]. *)
Definition lower : string -> string := map_chars lower_char.
Definition upper : string -> string := map_chars upper_char.

(** Every character of [s] is of the class [c]. *)
Fixpoint all (c : ascii -> bool) (s : string) : bool :=
  match s with
  | "" => true
  | String a s' => c a && all c s'
  end.

(** [s.startswith(p)]. *)
Definition startswith (p s : string) : bool := String.prefix p s.

(** [s[n:]]. *)
Fixpoint drop (n : nat) (s : string) : string :=
  match n, s with
  | 0, _ => s
  | S _, "" => ""
  | S k, String _ s' => drop k s'
  end.

(** [sub in s]. *)
Fixpoint contains (sub s : string) : bool :=
  startswith sub s ||
  match s with
  | "" => false
  | String _ s' => contains sub s'
  end.

(** [s.count(sub)] for a non-empty [sub]: occurrences are taken left to
    right and do not overlap; [skip] is the number of characters of the
    occurrence just counted that are still to be passed over. *)
Fixpoint count_from (sub s : string) (skip : nat) : nat :=
  match s with
  | "" => 0
  | String _ s' =>
      match skip with
      | S k => count_from sub s' k
      | 0 => if startswith sub s
             then S (count_from sub s' (String.length sub - 1))
             else count_from sub s' 0
      end
  end.

(** [s.count(sub)]; the empty [sub] occurs between all characters. *)
Definition count (sub s : string) : nat :=
  match sub with
  | "" => S (String.length s)
  | _ => count_from sub s 0
  end.

(** [s.partition(sep)] for a non-empty [sep]: the text before the first
    occurrence of [sep] and, when there is one, the text after it. *)
Fixpoint cut (sep s : string) : string * option string :=
  if startswith sep s then ("", Some (drop (String.length sep) s))
  else match s with
       | "" => ("", None)
       | String a s' => let (b, r) := cut sep s' in (String a b, r)
       end.

(** [s.split(sep, 1)]. *)
Definition split1 (sep s : string) : list string :=
  match cut sep s with
  | (b, Some r) => [b; r]
  | (b, None) => [b]
  end.

(** [s.split(c)] for a one-character separator. *)
Fixpoint split_char (c : ascii) (s : string) : list string :=
  match s with
  | "" => [""]
  | String a s' =>
      if Ascii.eqb a c then "" :: split_char c s'
      else match split_char c s' with
           | l :: ls => String a l :: ls
           | [] => [String a ""]
           end
  end.

(** Iterating over an open text file: the lines, each with its newline. *)
Fixpoint file_lines (s : string) : list string :=
  match s with
  | "" => []
  | String a s' =>
      if Ascii.eqb a nl then String a "" :: file_lines s'
      else match file_lines s' with
           | l :: ls => String a l :: ls
           | [] => [String a ""]
           end
  end.

(** [s.lstrip()], [s.rstrip()] and [s.strip()]. *)
Fixpoint lstrip (s : string) : string :=
  match s with
  | "" => ""
  | String a s' => if isspace a then lstrip s' else s
  end.

Fixpoint rstrip (s : string) : string :=
  match s with
  | "" => ""
  | String a s' =>
      match rstrip s' with
      | "" => if isspace a then "" else String a ""
      | r => String a r
      end
  end.

Definition strip (s : string) : string := rstrip (lstrip s).

(** [sep.join(l)]. *)
Fixpoint join (sep : string) (l : list string) : string :=
  match l with
  | [] => ""
  | [x] => x
  | x :: rest => x ++ sep ++ join sep rest
  end.

(** [str(n)] and the format [{n:,}]. *)
Definition str (n : nat) : string := NilEmpty.string_of_uint (Nat.to_uint n).

Fixpoint group3 (s : string) : string :=
  match s with
  | "" => ""
  | String a s' =>
      String a (if (0 <? String.length s') && (String.length s' mod 3 =? 0)
                then "," ++ group3 s' else group3 s')
  end.

Definition str_commas (n : nat) : string := group3 (str n).

(** [l[0]] on a list that [split] returned (never empty). *)
Definition item0 (l : list string) : string := nth 0 l "".

End PyStr.

(** ** The fragment of Python's [re] that the scripts use

    A pattern is matched by backtracking: each repetition offers its ways
    to match in the order the engine tries them, and the first way that
    lets the rest of the pattern match is the one taken. An alternative is
    a pair of the text consumed and the text that remains. *)
Module Re.
Import PyStr.

Definition alts : Type := list (string * string).

Definition consume (a : ascii) (l : alts) : alts :=
  map (fun p => (String a (fst p), snd p)) l.

(** [c*]: as many characters of the class as possible first. *)
Fixpoint star (c : ascii -> bool) (s : string) : alts :=
  match s with
  | "" => [("", "")]
  | String a s' =>
      if c a then (consume a (star c s') ++ [("", s)])%list else [("", s)]
  end.

(** [c+]: one character of the class, then [c*]. *)
Definition plus (c : ascii -> bool) (s : string) : alts :=
  match s with
  | "" => []
  | String a s' => if c a then consume a (star c s') else []
  end.

(** [c*?] and [c+?]: as few characters as possible first. *)
Fixpoint star_lazy (c : ascii -> bool) (s : string) : alts :=
  ("", s) ::
  match s with
  | "" => []
  | String a s' => if c a then consume a (star_lazy c s') else []
  end.

Definition plus_lazy (c : ascii -> bool) (s : string) : alts :=
  match s with
  | "" => []
  | String a s' => if c a then consume a (star_lazy c s') else []
  end.

(** A literal: the remaining text when [s] starts with [p]. *)
Definition lit (p s : string) : option string :=
  if startswith p s then Some (drop (String.length p) s) else None.

(** The first alternative with which the continuation [k] succeeds. *)
Fixpoint first_some {A B : Type} (k : A -> option B) (l : list A) : option B :=
  match l with
  | [] => None
  | x :: rest =>
      match k x with
      | Some y => Some y
      | None => first_some k rest
      end
  end.

Definition bind {A B : Type} (o : option A) (k : A -> option B) : option B :=
  match o with
  | Some x => k x
  | None => None
  end.

(** [$] without MULTILINE: the end of the text, or just before a newline
    that ends the text. *)
Definition at_end (s : string) : bool :=
  match s with
  | "" => true
  | String a "" => Ascii.eqb a nl
  | _ => false
  end.

(** A match of a pattern at the head of a text: what the pattern captured
    and the text after the match. A found match also carries the text from
    its start on, [content[m.start():]]. *)
Definition matcher (A : Type) : Type := string -> option (A * string).

(** [re.search]: the match at the leftmost position that has one. *)
Fixpoint search {A : Type} (m : matcher A) (s : string) : option A :=
  match m s with
  | Some (v, _) => Some v
  | None =>
      match s with
      | "" => None
      | String _ s' => search m s'
      end
  end.

(** [re.finditer]: the matches from left to right, each search resuming
    where the previous match ended; [skip] counts the characters of the
    previous match that are still to be passed over. *)
Fixpoint finditer_from {A : Type} (m : matcher A) (s : string) (skip : nat)
  : list (string * A) :=
  match skip with
  | S k =>
      match s with
      | "" => []
      | String _ s' => finditer_from m s' k
      end
  | 0 =>
      match m s with
      | Some (v, rest) =>
          (s, v) ::
          match s with
          | "" => []
          | String _ s' =>
              finditer_from m s' (String.length s - String.length rest - 1)
          end
      | None =>
          match s with
          | "" => []
          | String _ s' => finditer_from m s' 0
          end
      end
  end.

Definition finditer {A : Type} (m : matcher A) (s : string) : list (string * A) :=
  finditer_from m s 0.

(** [p?] for a literal [p]: with it first, then without. *)
Definition opt (p s : string) : alts :=
  match lit p s with
  | Some r => [(p, r); ("", s)]
  | None => [("", s)]
  end.

(** One character of a class. *)
Definition one (c : ascii -> bool) (s : string) : option (string * string) :=
  match s with
  | "" => None
  | String a s' => if c a then Some (String a "", s') else None
  end.

(** [(?:item)+], greedy: an item, then as many more as possible, and the
    continuation [k] on the text matched so far ([acc] and the items).
    The item is given with its own continuation. Each item consumes at
    least one character, so [fuel] above the length of [s] is never used
    up. *)
Fixpoint plus_group {B : Type} (fuel : nat)
    (item : string -> (string * string -> option B) -> option B)
    (acc s : string) (k : string * string -> option B) : option B :=
  match fuel with
  | 0 => None
  | S f =>
      item s (fun '(m, r) =>
        match plus_group f item (acc ++ m) r k with
        | Some y => Some y
        | None => k (acc ++ m, r)
        end)
  end.

(** An item consumes: what it passes to its continuation is shorter than
    the text it was given, so that its result rests on the continuation at
    shorter texts only. *)
Definition consuming {B : Type}
    (item : string -> (string * string -> option B) -> option B) : Prop :=
  forall s k k',
    (forall m r, String.length r < String.length s -> k (m, r) = k' (m, r)) ->
    item s k = item s k'.

End Re.

(** ** [assess_codebase.py]: the complexity heuristic *)
Module Assess.
Import PyStr Re.

(** [func_pattern = r'def\s+(\w+)\s*\(']; the value is [group(1)]. *)
Definition func_pattern : matcher string := fun s =>
  bind (lit "def" s) (fun s1 =>
  first_some (fun '(_, s2) =>
  first_some (fun '(name, s3) =>
  first_some (fun '(_, s4) =>
  bind (lit "(" s4) (fun s5 => Some (name, s5)))
  (star isspace s3))
  (plus isword s2))
  (plus isspace s1)).

Definition keywords : list string :=
  ["if"; "for"; "while"; "and"; "or"; "elif"; "except"].

(** The text the keywords are counted in, for a match that starts where
    [from_start = content[func.start():]] begins:
    [content[func.start():].split('def', 1)[0]]. *)
Definition body_window (from_start : string) : string :=
  item0 (split1 "def" from_start).

(** [sum(window.count(keyword) for keyword in keywords)]. *)
Definition score (window : string) : nat :=
  list_sum (map (fun keyword => count keyword window) keywords).

Definition complexity (from_start : string) : nat :=
  score (body_window from_start).

(** [detect_complexity] on the text of a file that could be read. *)
Definition detect_complexity_text (content : string) : list (string * nat) :=
  flat_map
    (fun '(from_start, func_name) =>
       if 10 <? complexity from_start
       then [(func_name, complexity from_start)] else [])
    (finditer func_pattern content).

(** [detect_complexity]: [None] is a file that cannot be opened or
    decoded, for which the [except] clause leaves the result empty. *)
Definition detect_complexity (content : option string) : list (string * nat) :=
  match content with
  | Some text => detect_complexity_text text
  | None => []
  end.

(** *** The source tree

    What the scripts read from the disk: every path below the root in the
    order [rglob] walks them, the content of each one as Python decodes it
    ([None] for a directory and for a file that cannot be opened or
    decoded to its end), and the dependency names of [package.json]
    ([None] when the file does not load).

    A file that cannot be decoded to its end still gives lines to a loop
    over it before the loop fails: [read_before_error] is the text of
    those lines, empty for a path that cannot be opened. It has no
    meaning for a file with a content. *)
Record Entry : Type := {
  rel_parts : list string;
  is_dir : bool;
  content : option string;
  read_before_error : string
}.

Record Tree : Type := {
  root_parts : list string;
  entries : list Entry;
  package_deps : option (list string)
}.

(** [path.name] and [str(path.relative_to(root_dir))]. *)
Definition name (e : Entry) : string := last (rel_parts e) "".
Definition relative (e : Entry) : string := join "/" (rel_parts e).

(** [path.parts]: the parts of the root, then those below it. *)
Definition parts (t : Tree) (e : Entry) : list string :=
  (root_parts t ++ rel_parts e)%list.

Definition mem (x : string) (l : list string) : bool :=
  existsb (String.eqb x) l.

Definition endswith (p s : string) : bool :=
  (String.length p <=? String.length s) &&
  String.eqb (drop (String.length s - String.length p) s) p.

(** A glob with one star, [pre*post], against a file name. *)
Definition glob (pre post s : string) : bool :=
  (String.length pre + String.length post <=? String.length s) &&
  startswith pre s && endswith post s.

(** [root_dir.rglob(pre*post)]. *)
Definition rglob (t : Tree) (pre post : string) : list Entry :=
  filter (fun e => glob pre post (name e)) (entries t).

Definition find_python_files (t : Tree) : list Entry :=
  filter
    (fun e =>
       negb (existsb
               (fun part =>
                  startswith "." part || mem part ["venv"; ".venv"; "node_modules"])
               (parts t e)))
    (rglob t "" ".py").

Definition find_js_ts_files (t : Tree) : list Entry :=
  flat_map
    (fun post =>
       filter
         (fun e =>
            negb (existsb
                    (fun part =>
                       startswith "." part || String.eqb part "node_modules")
                    (parts t e)))
         (rglob t "" post))
    [".js"; ".jsx"; ".ts"; ".tsx"].

(** [count_lines]: the number of lines, 0 for a file that cannot be read. *)
Definition count_lines (e : Entry) : nat :=
  match content e with
  | Some text => List.length (file_lines text)
  | None => 0
  end.

(** [enumerate(f, 1)]. *)
Fixpoint enumerate_from {A : Type} (n : nat) (l : list A) : list (nat * A) :=
  match l with
  | [] => []
  | x :: rest => (n, x) :: enumerate_from (S n) rest
  end.

(** The findings among the lines of [text], the loop of [find_todos]. *)
Definition todos_in (e : Entry) (text : string) : list string :=
  flat_map
    (fun '(line_num, line) =>
       if contains "TODO" line || contains "FIXME" line
       then [name e ++ ":" ++ str line_num ++ ": " ++ strip line]
       else [])
    (enumerate_from 1 (file_lines text)).

(** [find_todos]: the loop appends to [todos] line by line, and the
    [except] clause keeps what was appended: a file that fails midway
    gives the findings of the lines read before the failure. *)
Definition find_todos (e : Entry) : list string :=
  match content e with
  | Some text => todos_in e text
  | None => todos_in e (read_before_error e)
  end.

(** The [results] dictionary of [analyze_codebase]. [languages] keeps the
    order in which its keys were set. *)
Record Results : Type := {
  total_files : nat;
  total_lines : nat;
  languages : list (string * nat);
  large_files : list (string * nat);
  complex_functions : list (string * string * nat);
  todos : list string;
  test_files : nat;
  framework : string
}.

Definition initial_results : Results :=
  {| total_files := 0; total_lines := 0; languages := [];
     large_files := []; complex_functions := []; todos := [];
     test_files := 0; framework := "Unknown" |}.

Definition exists_in_root (t : Tree) (file : string) : bool :=
  existsb
    (fun e => match rel_parts e with
              | [n] => String.eqb n file
              | _ => false
              end)
    (entries t).

Definition detect_framework (t : Tree) : string :=
  if exists_in_root t "manage.py" then "Django"
  else if exists_in_root t "app.py" || exists_in_root t "wsgi.py" then "Flask"
  else if exists_in_root t "package.json" then
    match package_deps t with
    | Some deps =>
        if mem "react" deps then "React"
        else if mem "express" deps then "Express"
        else "Unknown"
    | None => "Unknown"
    end
  else "Unknown".

Definition test_patterns : list (string * string) :=
  [("test_", ".py"); ("", "_test.py"); ("", ".test.js");
   ("", ".test.ts"); ("", ".spec.js"); ("", ".spec.ts")].

Section Analyze.

(** The complexity detector that the Python loop calls on each file. *)
Variable detect : option string -> list (string * nat).

(** The body of [for py_file in python_files]. *)
Definition python_step (r : Results) (py_file : Entry) : Results :=
  let lines := count_lines py_file in
  {| total_files := total_files r;
     total_lines := total_lines r + lines;
     languages := languages r;
     large_files :=
       if 500 <? lines
       then (large_files r ++ [(relative py_file, lines)])%list
       else large_files r;
     complex_functions :=
       (complex_functions r ++
        map (fun '(func_name, complexity) =>
               (relative py_file, func_name, complexity))
            (detect (content py_file)))%list;
     todos := (todos r ++ find_todos py_file)%list;
     test_files := test_files r;
     framework := framework r |}.

(** The body of [for js_file in js_files]. *)
Definition js_step (r : Results) (js_file : Entry) : Results :=
  let lines := count_lines js_file in
  {| total_files := total_files r;
     total_lines := total_lines r + lines;
     languages := languages r;
     large_files :=
       if 500 <? lines
       then (large_files r ++ [(relative js_file, lines)])%list
       else large_files r;
     complex_functions := complex_functions r;
     todos := (todos r ++ find_todos js_file)%list;
     test_files := test_files r;
     framework := framework r |}.

(** A language bucket is entered when files of it were found. *)
Definition enter_language (label : string) (files : list Entry) (r : Results)
  : Results :=
  match files with
  | [] => r
  | _ =>
      {| total_files := total_files r + List.length files;
         total_lines := total_lines r;
         languages := (languages r ++ [(label, List.length files)])%list;
         large_files := large_files r;
         complex_functions := complex_functions r;
         todos := todos r;
         test_files := test_files r;
         framework := framework r |}
  end.

Definition analyze_codebase_with (t : Tree) : Results :=
  let python_files := find_python_files t in
  let r1 :=
    fold_left python_step python_files
      (enter_language "Python" python_files initial_results) in
  let js_files := find_js_ts_files t in
  let r2 :=
    fold_left js_step js_files
      (enter_language "JavaScript/TypeScript" js_files r1) in
  {| total_files := total_files r2;
     total_lines := total_lines r2;
     languages := languages r2;
     large_files := large_files r2;
     complex_functions := complex_functions r2;
     todos := todos r2;
     test_files :=
       fold_left
         (fun n '(pre, post) => n + List.length (rglob t pre post))
         test_patterns (test_files r2);
     framework := detect_framework t |}.

End Analyze.

(** What one file adds to [large_files], and a Python file to
    [complex_functions]. *)
Definition large_entry (e : Entry) : list (string * nat) :=
  if 500 <? count_lines e then [(relative e, count_lines e)] else [].

Definition complex_entries (detect : option string -> list (string * nat))
    (e : Entry) : list (string * string * nat) :=
  map (fun '(func_name, complexity) => (relative e, func_name, complexity))
      (detect (content e)).

(** [analyze_codebase]: the loop calls [detect_complexity]. *)
Definition analyze_codebase (t : Tree) : Results :=
  analyze_codebase_with detect_complexity t.

End Assess.

(** ** [assess_codebase.py]: the report *)
Module Report.
Import PyStr Assess.

(** The text of the given lines, each ended by a newline. *)
Definition lines (l : list string) : string :=
  String.concat "" (map (fun x => x ++ NL) l).

(** [sorted(l, key=key, reverse=True)]: descending by key, and stable, so
    entries with equal keys keep the order they had in [l]. *)
Fixpoint insert_desc {A : Type} (key : A -> nat) (x : A) (l : list A) : list A :=
  match l with
  | [] => [x]
  | y :: rest =>
      if key y <=? key x then x :: l else y :: insert_desc key x rest
  end.

Definition sorted_desc {A : Type} (key : A -> nat) (l : list A) : list A :=
  fold_right (insert_desc key) [] l.

(** The order of a list sorted that way. *)
Definition desc {A : Type} (key : A -> nat) (x y : A) : Prop := key y <= key x.

(** What rendering reads besides [results]: the clock, as
    [datetime.now().strftime('%Y-%m-%d %H:%M:%S')] formats it, and
    [sorted(root_dir.iterdir())], each item with its name and whether it
    is a directory. *)
Record World : Type := {
  now : string;
  top_level : list (string * bool)
}.

(** Lines 233-260. *)
Definition summary (w : World) (results : Results) : string :=
  lines
    [ "# Legacy Codebase Assessment";
      "";
      "Generated: " ++ now w;
      "";
      "## Executive Summary";
      "";
      "- **Total Files**: " ++ str (total_files results);
      "- **Total Lines**: " ++ str_commas (total_lines results);
      "- **Languages**: " ++
        join ", "
          (map (fun '(k, v) => k ++ " (" ++ str v ++ " files)")
               (languages results));
      "- **Framework**: " ++ framework results;
      "- **Test Files**: " ++ str (test_files results);
      "- **Large Files (>500 lines)**: " ++
        str (List.length (large_files results));
      "- **Complex Functions (complexity >10)**: " ++
        str (List.length (complex_functions results));
      "- **TODO/FIXME Comments**: " ++ str (List.length (todos results));
      "";
      "## Functionality Inventory";
      "";
      "### Core Features";
      "";
      "*Manual review needed. Key areas to document:*";
      "- Main user-facing features";
      "- Business logic components";
      "- Data models and relationships";
      "- External integrations";
      "";
      "### Entry Points";
      "" ].

(** Lines 264-269. *)
Definition django_entry_points : string :=
  lines
    [ "*Django project:*";
      "- `manage.py runserver` - Development server";
      "- `manage.py` - Management commands";
      "- Check `urls.py` for API endpoints";
      "- Check `admin.py` for admin interface";
      "" ].

(** Lines 272-275. *)
Definition flask_entry_points : string :=
  lines
    [ "*Flask project:*";
      "- Look for `app.py` or `wsgi.py`";
      "- Check route decorators (@app.route)";
      "" ].

(** Lines 278-282. *)
Definition react_entry_points : string :=
  lines
    [ "*React project:*";
      "- `npm start` - Development server";
      "- Check `src/App.js` or `src/App.tsx`";
      "- Review `package.json` scripts";
      "" ].

(** Lines 285-289. *)
Definition architecture_open : string :=
  lines
    [ "## Architecture";
      "";
      "### Current Structure";
      "";
      "```" ].

(** Lines 297-300. *)
Definition issues_open : string :=
  lines
    [ "```";
      "";
      "### Issues";
      "" ].

(** Lines 325-331. *)
Definition dependencies_section : string :=
  lines
    [ "### Dependencies";
      "";
      "*Manual review needed:*";
      "- Check `requirements.txt` or `package.json`";
      "- Run security audits: `pip-audit` or `npm audit`";
      "- Check for outdated dependencies";
      "" ].

(** Lines 334-337. *)
Definition test_coverage_open : string :=
  lines
    [ "## Test Coverage";
      "";
      "### Current State";
      "" ].

(** Lines 352-363. *)
Definition gaps_section : string :=
  lines
    [ "";
      "### Gaps";
      "";
      "**Critical paths needing characterization tests:**";
      "1. Payment processing (if applicable)";
      "2. User authentication";
      "3. Data validation logic";
      "4. External API integrations";
      "5. Business rule implementations";
      "";
      "**Action**: Begin with characterization tests for critical paths.";
      "" ].

(** Lines 366-369. *)
Definition code_quality_open : string :=
  lines
    [ "## Code Quality";
      "";
      "### Complexity";
      "" ].

(** Lines 381-383. *)
Definition technical_debt_open : string :=
  lines
    [ "";
      "### Technical Debt";
      "" ].

(** Lines 399-404. *)
Definition linting_section : string :=
  lines
    [ "### Linting";
      "";
      "*Run linters to get detailed report:*";
      "- Python: `ruff check .`";
      "- JavaScript/TypeScript: `npx eslint .`";
      "" ].

(** Lines 407-410. *)
Definition risk_open : string :=
  lines
    [ "## Risk Assessment";
      "";
      "### High Risk Areas";
      "" ].

(** Lines 432-439. *)
Definition mitigation_section : string :=
  lines
    [ "";
      "### Mitigation Strategy";
      "";
      "1. **Write characterization tests first** - Create safety net";
      "2. **Start with quick wins** - Fix linting, remove dead code";
      "3. **Refactor incrementally** - Small, safe changes";
      "4. **Monitor coverage** - Ensure tests increase with changes";
      "" ].

(** Lines 442-453. *)
Definition opportunities_open : string :=
  lines
    [ "## Refactor Opportunities";
      "";
      "### Quick Wins (Low Risk, High Value)";
      "";
      "1. ✅ Run linters and fix auto-fixable issues";
      "2. ✅ Add docstrings to public functions";
      "3. ✅ Remove dead code (unused imports, functions)";
      "4. ✅ Extract hardcoded values to configuration";
      "5. ✅ Update dependencies (with tests)";
      "";
      "### Strategic Refactors (High Value, Requires Planning)";
      "" ].

(** Lines 460-470. *)
Definition opportunities_rest : string :=
  lines
    [ "3. 📋 Extract business logic into service layer";
      "4. 📋 Add comprehensive logging";
      "5. 📋 Improve error handling";
      "";
      "### Long-Term Improvements";
      "";
      "1. 🔮 Add API layer (if web app)";
      "2. 🔮 Implement caching strategy";
      "3. 🔮 Add monitoring and alerting";
      "4. 🔮 Containerize application (Docker)";
      "" ].

(** Lines 473-492. *)
Definition approach_open : string :=
  lines
    [ "## Recommended Approach";
      "";
      "### Phase 1: Stabilize (Weeks 1-2)";
      "";
      "1. ✅ Import template scaffolding (DONE)";
      "2. ✅ Run this assessment (DONE)";
      "3. 📋 Write characterization tests for critical paths";
      "4. 📋 Fix security vulnerabilities (if any)";
      "5. 📋 Update critical dependencies";
      "";
      "### Phase 2: Quick Wins (Weeks 3-4)";
      "";
      "1. 📋 Run linters, fix auto-fixable issues";
      "2. 📋 Remove dead code";
      "3. 📋 Add missing docstrings";
      "4. 📋 Extract configuration to environment variables";
      "5. 📋 Improve test coverage to 50%";
      "";
      "### Phase 3: Strategic Refactor (Months 2-3)";
      "" ].

(** Lines 499-509. *)
Definition approach_rest : string :=
  lines
    [ "3. 📋 Extract service layer";
      "4. 📋 Add API layer (if applicable)";
      "5. 📋 Improve test coverage to 80%";
      "";
      "### Phase 4: Long-Term (Months 4-6)";
      "";
      "1. 📋 Consider architectural improvements";
      "2. 📋 Add caching and optimization";
      "3. 📋 Implement monitoring";
      "4. 📋 Add CI/CD pipeline";
      "" ].

(** Lines 512-542. *)
Definition next_steps_section : string :=
  lines
    [ "## Next Steps";
      "";
      "1. **Review this assessment** with your team";
      "2. **Create refactor plan**: `docs/modernization/refactor-plan.md`";
      "   - Break phases into discrete tasks";
      "   - Prioritize by risk and value";
      "   - Define acceptance criteria";
      "3. **Begin characterization tests**: `docs/modernization/characterization-tests.md`";
      "   - Start with critical paths";
      "   - Aim for 80%+ coverage before refactoring";
      "4. **Create GitHub Issues**: `python scripts/modernize/create_refactor_issues.py`";
      "5. **Start with quick wins** to build momentum";
      "";
      "## Success Criteria";
      "";
      "- [ ] Test coverage >80%";
      "- [ ] All linting issues resolved";
      "- [ ] No security vulnerabilities";
      "- [ ] No functions with complexity >10";
      "- [ ] No files >500 lines";
      "- [ ] All critical paths have characterization tests";
      "- [ ] Dependencies up-to-date";
      "- [ ] Documentation complete";
      "";
      "---";
      "";
      "**Generated by:** `scripts/modernize/assess_codebase.py`";
      "";
      "**See also:**";
      "- Planning: `docs/planning/features/FEAT-003-legacy-code-modernization.md`";
      "- Rules: `.cursorrules` (search for " ++ dq ++ "Legacy Code Modernization" ++ dq ++ ")" ].


(** Lines 263-283. *)
Definition entry_points (results : Results) : string :=
  if String.eqb (framework results) "Django" then django_entry_points
  else if String.eqb (framework results) "Flask" then flask_entry_points
  else if String.eqb (framework results) "React" then react_entry_points
  else "".

(** Lines 293-295: the directories of the root that are not hidden. *)
Definition visible_dirs (top : list (string * bool)) : list string :=
  map fst (filter (fun item => snd item && negb (startswith "." (fst item))) top).

Definition current_structure (w : World) : string :=
  fold_left
    (fun report item =>
       if snd item && negb (startswith "." (fst item))
       then report ++ fst item ++ "/" ++ NL
       else report)
    (top_level w) "".

(** Lines 304-312. *)
Definition large_files_shown (results : Results) : list (string * nat) :=
  firstn 10 (sorted_desc snd (large_files results)).

Definition large_file_item (x : string * nat) : string :=
  "- ❌ `" ++ fst x ++ "` (" ++ str_commas (snd x) ++
  " lines) - Consider splitting" ++ NL.

Definition large_files_section (results : Results) : string :=
  match large_files results with
  | [] => ""
  | _ =>
      "**Large Files (>500 lines):**" ++ NL ++ NL ++
      String.concat "" (map large_file_item (large_files_shown results)) ++
      NL
  end.

(** Lines 315-323. *)
Definition complex_functions_shown (results : Results)
  : list (string * string * nat) :=
  firstn 10 (sorted_desc snd (complex_functions results)).

Definition complex_function_item (x : string * string * nat) : string :=
  "- ⚠️  `" ++ fst (fst x) ++ "::" ++ snd (fst x) ++ "` (complexity: " ++
  str (snd x) ++ ") - REFACTOR" ++ NL.

Definition complex_functions_section (results : Results) : string :=
  match complex_functions results with
  | [] => ""
  | _ =>
      "**Complex Functions (>10 decision points):**" ++ NL ++ NL ++
      String.concat ""
        (map complex_function_item (complex_functions_shown results)) ++
      NL
  end.

(** Lines 340-350. *)
Definition test_coverage_state (results : Results) : string :=
  if test_files results =? 0 then
    "- ❌ **No test files found** - CRITICAL RISK" ++ NL ++
    "- This is the highest priority for modernization" ++ NL
  else if test_files results <? 10 then
    "- ⚠️  **Only " ++ str (test_files results) ++
    " test files found** - LOW COVERAGE" ++ NL ++
    "- Significant testing gaps likely exist" ++ NL
  else
    "- ✅ " ++ str (test_files results) ++ " test files found" ++ NL ++
    "- Coverage analysis needed (run `pytest --cov` or `npm test -- --coverage`)"
    ++ NL.

(** Lines 372-379. *)
Definition complexity_state (results : Results) : string :=
  match complex_functions results with
  | [] =>
      "- ✅ No obviously complex functions detected (basic heuristic)" ++ NL
  | _ =>
      "- Found " ++ str (List.length (complex_functions results)) ++
      " functions with high complexity" ++ NL ++
      "- Top offenders listed above" ++ NL ++
      "- **Action**: Refactor complex functions using Extract Method pattern"
      ++ NL
  end.

(** Lines 386-397: the TODO comments that are listed, and the line that
    follows them when some are left out. *)
Definition todos_shown (results : Results) : list string :=
  if List.length (todos results) <=? 20
  then firstn 20 (todos results)
  else firstn 10 (todos results).

Definition todos_more (results : Results) : string :=
  if List.length (todos results) <=? 20 then ""
  else NL ++ "... and " ++ str (List.length (todos results) - 10) ++
       " more" ++ NL.

Definition todo_item (todo : string) : string := "- " ++ todo ++ NL.

Definition todos_section (results : Results) : string :=
  match todos results with
  | [] => "- ✅ No TODO/FIXME comments found" ++ NL ++ NL
  | _ =>
      "**TODO/FIXME Comments: " ++ str (List.length (todos results)) ++ "**" ++
      NL ++ NL ++
      String.concat "" (map todo_item (todos_shown results)) ++
      todos_more results ++
      NL ++ "**Action**: Convert TODOs to GitHub Issues" ++ NL ++ NL
  end.

Definition nonempty {A : Type} (l : list A) : bool :=
  match l with
  | [] => false
  | _ => true
  end.

(** Lines 414-430. *)
Definition high_risk (results : Results) : list string :=
  List.app
    (if test_files results =? 0
     then ["❌ **No tests** - Any change is risky"] else [])
    (List.app
       (if nonempty (complex_functions results)
        then ["❌ **" ++ str (List.length (complex_functions results)) ++
              " complex functions** - Hard to understand and modify"]
        else [])
       (if nonempty (large_files results)
        then ["❌ **" ++ str (List.length (large_files results)) ++
              " large files** - Difficult to maintain"]
        else [])).

Definition high_risk_section (results : Results) : string :=
  match high_risk results with
  | [] => "- ✅ No obvious high-risk areas detected" ++ NL
  | risks => lines risks
  end.

(** Lines 456-459 and 495-498. *)
Definition strategic_refactors (results : Results) : string :=
  (if nonempty (large_files results)
   then "1. 📋 Split large files into smaller modules" ++ NL else "") ++
  (if nonempty (complex_functions results)
   then "2. 📋 Refactor complex functions (Extract Method pattern)" ++ NL
   else "").

Definition phase3_refactors (results : Results) : string :=
  (if nonempty (large_files results)
   then "1. 📋 Split large files into modules" ++ NL else "") ++
  (if nonempty (complex_functions results)
   then "2. 📋 Refactor complex functions" ++ NL else "").

(** [generate_assessment_report]: the pieces in the order they are added
    to [report]. *)
Definition generate_assessment_report (w : World) (results : Results) : string :=
  String.concat ""
    [ summary w results;
      entry_points results;
      architecture_open;
      current_structure w;
      issues_open;
      large_files_section results;
      complex_functions_section results;
      dependencies_section;
      test_coverage_open;
      test_coverage_state results;
      gaps_section;
      code_quality_open;
      complexity_state results;
      technical_debt_open;
      todos_section results;
      linting_section;
      risk_open;
      high_risk_section results;
      mitigation_section;
      opportunities_open;
      strategic_refactors results;
      opportunities_rest;
      approach_open;
      phase3_refactors results;
      approach_rest;
      next_steps_section ].

End Report.

(** ** [create_refactor_issues.py] *)
Module Issues.
Import PyStr Re.

(** The lookahead [(?=####|$)]. *)
Definition block_end (s : string) : bool := startswith "####" s || at_end s.

(** What follows [(.+?)] in [task_pattern]: the block ends where the
    lookahead holds. The group is [acc] and the text consumed after it. *)
Definition block_stop (task_id acc : string) (p : string * string)
  : option ((string * string) * string) :=
  if block_end (snd p) then Some ((task_id, acc ++ fst p), snd p) else None.

(** [task_pattern = r'####\s+TASK-(\d+):\s+(.+?)(?=####|$)'] with DOTALL;
    the value is [(group(1), group(2))]. *)
Definition task_pattern : matcher (string * string) := fun s =>
  bind (lit "####" s) (fun s1 =>
  first_some (fun '(_, s2) =>
  bind (lit "TASK-" s2) (fun s3 =>
  first_some (fun '(task_id, s4) =>
  bind (lit ":" s4) (fun s5 =>
  first_some (fun '(_, s6) =>
  first_some (block_stop task_id "") (plus_lazy anychar s6))
  (plus isspace s5)))
  (plus isdigit s3)))
  (plus isspace s1)).

(** [r'\*\*Label\*\*:\s+(\w+)'], for [label = "**Label**:"]. *)
Definition word_field (label : string) : matcher string := fun s =>
  bind (lit label s) (fun s1 =>
  first_some (fun '(_, s2) =>
  first_some (fun '(v, s3) => Some (v, s3)) (plus isword s2))
  (plus isspace s1)).

(** [r'\*\*Label\*\*:\s+(.+)']. *)
Definition line_field (label : string) : matcher string := fun s =>
  bind (lit label s) (fun s1 =>
  first_some (fun '(_, s2) =>
  first_some (fun '(v, s3) => Some (v, s3)) (plus notnl s2))
  (plus isspace s1)).

(** The list item [- .+\n?]. *)
Definition list_item {B : Type} (s : string)
    (k : string * string -> option B) : option B :=
  bind (lit "- " s) (fun s1 =>
  first_some (fun '(text, s2) =>
  first_some (fun '(e, s3) => k ("- " ++ text ++ e, s3)) (opt NL s2))
  (plus notnl s1)).

(** The checkbox item [- \[.\] .+\n?]. *)
Definition checkbox_item {B : Type} (s : string)
    (k : string * string -> option B) : option B :=
  bind (lit "- [" s) (fun s1 =>
  bind (one notnl s1) (fun '(mark, s2) =>
  bind (lit "] " s2) (fun s3 =>
  first_some (fun '(text, s4) =>
  first_some (fun '(e, s5) => k ("- [" ++ mark ++ "] " ++ text ++ e, s5))
    (opt NL s4))
  (plus notnl s3)))).

(** [r'\*\*Label\*\*:\s*\n((?:item)+)']. *)
Definition block_field (label : string)
    (item : string -> (string * string -> option (string * string)) ->
            option (string * string))
  : matcher string := fun s =>
  bind (lit label s) (fun s1 =>
  first_some (fun '(_, s2) =>
  bind (lit NL s2) (fun s3 =>
  plus_group (S (String.length s3)) item "" s3 (fun m => Some m)))
  (star isspace s1)).

(** The dictionary that [parse_refactor_plan] builds for a task. *)
Record Task : Type := {
  id : string;
  title : string;
  priority : string;
  risk : string;
  effort : string;
  what : string;
  why : string;
  criteria : string;
  dependencies : string
}.

(** [post(m.group(1)) if m else default] for [m = re.search(...)]. *)
Definition extract (m : matcher string) (post : string -> string)
    (default task_block : string) : string :=
  match search m task_block with
  | Some v => post v
  | None => default
  end.

(** The body of the loop over the matches of [task_pattern]. *)
Definition parse_task (task_id task_block : string) : Task :=
  {| id := "TASK-" ++ task_id;
     title := strip (item0 (split_char nl (strip task_block)));
     priority := extract (word_field "**Priority**:") lower "medium" task_block;
     risk := extract (word_field "**Risk**:") lower "medium" task_block;
     effort := extract (line_field "**Effort**:") strip "TBD" task_block;
     what := extract (block_field "**What**:" list_item) strip "" task_block;
     why := extract (block_field "**Why**:" list_item) strip "" task_block;
     criteria :=
       extract (block_field "**Acceptance Criteria**:" checkbox_item)
         strip "" task_block;
     dependencies :=
       extract (line_field "**Dependencies**:") strip "None" task_block |}.

Definition parse_refactor_plan (content : string) : list Task :=
  map (fun m => parse_task (fst (snd m)) (snd (snd m)))
      (finditer task_pattern content).

Definition create_issue_body (task : Task) : string :=
  "**Task ID:** " ++ id task ++ NL ++
  "**Priority:** " ++ upper (priority task) ++ NL ++
  "**Risk:** " ++ upper (risk task) ++ NL ++
  "**Effort:** " ++ effort task ++ NL ++
  NL ++
  "## What" ++ NL ++
  NL ++
  what task ++ NL ++
  NL ++
  "## Why" ++ NL ++
  NL ++
  why task ++ NL ++
  NL ++
  "## Acceptance Criteria" ++ NL ++
  NL ++
  criteria task ++ NL ++
  NL ++
  "## Dependencies" ++ NL ++
  NL ++
  dependencies task ++ NL ++
  NL ++
  "---" ++ NL ++
  NL ++
  "**Part of legacy code modernization workflow.**" ++ NL ++
  NL ++
  "See: `docs/modernization/refactor-plan.md`" ++ NL.

(** [mapping.get(key, default)] on the dictionary written as pairs. *)
Fixpoint get (mapping : list (string * string)) (key default : string) : string :=
  match mapping with
  | [] => default
  | (k, v) :: rest => if String.eqb k key then v else get rest key default
  end.

Definition get_priority_label (priority : string) : string :=
  get [("urgent", "priority:high"); ("high", "priority:high");
       ("medium", "priority:medium"); ("low", "priority:low")]
      (lower priority) "priority:medium".

(** The arguments of [api.create_issue]. *)
Record IssueRequest : Type := {
  issue_title : string;
  issue_body : string;
  labels : list string;
  add_to_project : bool;
  column_name : string
}.

Definition issue_labels (task : Task) : list string :=
  List.app
    ["modernization"; get_priority_label (priority task)]
    (if String.eqb (lower (risk task)) "high" then ["high-risk"] else []).

Definition issue_request (task : Task) : IssueRequest :=
  {| issue_title := "[Modernization] " ++ id task ++ ": " ++ title task;
     issue_body := create_issue_body task;
     labels := issue_labels task;
     add_to_project := true;
     column_name := "Backlog" |}.

(** What [api.create_issue] does with a request: it returns the issue,
    of which [main] reads the number, or raises [GitHubAPIError], which
    [main] catches, or raises another exception, which it does not. *)
Inductive Outcome : Type :=
| Issue (number : nat)
| GitHubAPIError (message : string)
| OtherException (message : string).

(** The plan file as [main] finds it: not there, there but failing to
    open or to decode, or there with its text. *)
Inductive PlanFile : Type :=
| Missing
| Unreadable
| Readable (content : string).

(** What a run of [main] leaves: its exit code, the two lists of created
    and failed tasks, the requests that it made of the tracker, in order,
    and whether an exception left [main], which ends the interpreter with
    1 before anything after the failing statement is done. *)
Record Run : Type := {
  exit_code : nat;
  created_issues : list (string * nat);
  failed_issues : list string;
  requests : list IssueRequest;
  uncaught : bool
}.

(** The tasks that got an issue, with its number, and those that were
    refused. *)
Definition successes (l : list (Task * Outcome)) : list (string * nat) :=
  flat_map
    (fun x => match snd x with
              | Issue number => [(id (fst x), number)]
              | _ => []
              end) l.

Definition failures (l : list (Task * Outcome)) : list string :=
  flat_map
    (fun x => match snd x with
              | GitHubAPIError _ => [id (fst x)]
              | _ => []
              end) l.

Definition is_other (o : Outcome) : bool :=
  match o with
  | OtherException _ => true
  | _ => false
  end.

Section Main.

(** The tracker client, [utils.github_api.GitHubAPI], is not part of the
    scripts: its state and its [create_issue] are taken as given. *)
Variable Tracker : Type.
Variable create_issue : Tracker -> IssueRequest -> Outcome * Tracker.

(** What [GitHubAPI()] gives: the client, [GitHubAPIError], which [main]
    catches, or another exception. *)
Inductive Setup : Type :=
| Client (a : Tracker)
| Refused
| Failed.

Record Loop : Type := {
  api : Tracker;
  created : list (string * nat);
  failed : list string;
  sent : list IssueRequest;
  raised : bool
}.

(** The body of [for task in tasks]; once an exception has left the loop
    no task is taken up any more. *)
Definition publish (st : Loop) (task : Task) : Loop :=
  if raised st then st
  else
    match create_issue (api st) (issue_request task) with
    | (Issue number, api') =>
        {| api := api';
           created := (created st ++ [(id task, number)])%list;
           failed := failed st;
           sent := (sent st ++ [issue_request task])%list;
           raised := false |}
    | (GitHubAPIError _, api') =>
        {| api := api';
           created := created st;
           failed := (failed st ++ [id task])%list;
           sent := (sent st ++ [issue_request task])%list;
           raised := false |}
    | (OtherException _, api') =>
        {| api := api';
           created := created st;
           failed := failed st;
           sent := (sent st ++ [issue_request task])%list;
           raised := true |}
    end.

(** The tasks that are sent, with what the tracker answers to each, one
    after the other: up to the end of the plan or to the first answer
    that [main] does not catch. *)
Fixpoint outcomes (a : Tracker) (tasks : list Task) : list (Task * Outcome) :=
  match tasks with
  | [] => []
  | task :: rest =>
      let (o, a') := create_issue a (issue_request task) in
      (task, o) :: (if is_other o then [] else outcomes a' rest)
  end.

Definition publish_all (a : Tracker) (tasks : list Task) : Loop :=
  fold_left publish tasks
    {| api := a; created := []; failed := []; sent := []; raised := false |}.

(** [return 1] before the tracker is asked anything, and an exception
    that leaves [main] there. *)
Definition stopped : Run :=
  {| exit_code := 1; created_issues := []; failed_issues := [];
     requests := []; uncaught := false |}.

Definition crashed : Run :=
  {| exit_code := 1; created_issues := []; failed_issues := [];
     requests := []; uncaught := true |}.

(** [main] from the path of the plan on (lines 155-258), the command
    line being parsed. The plan file is opened without a handler once it
    is known to exist, and [GitHubAPI()] with a handler for
    [GitHubAPIError] only. *)
Definition main (plan : PlanFile) (connect : Setup) : Run :=
  match plan with
  | Missing => stopped
  | Unreadable => crashed
  | Readable content =>
      match parse_refactor_plan content with
      | [] => stopped
      | tasks =>
          match connect with
          | Refused => stopped
          | Failed => crashed
          | Client a =>
              let st := publish_all a tasks in
              {| exit_code :=
                   if raised st then 1
                   else match failed st with [] => 0 | _ => 1 end;
                 created_issues := created st;
                 failed_issues := failed st;
                 requests := sent st;
                 uncaught := raised st |}
          end
      end
  end.

End Main.

Arguments Client {Tracker} a.
Arguments Refused {Tracker}.
Arguments Failed {Tracker}.

End Issues.

(** ** The specification's wording, where it is compared with the code *)
Module Claimed.
Import PyStr Re.

(** The body window as the specification words it: the text from the start
    of the match to the next occurrence of the keyword [def] after the one
    that opens the match, or to the end of the file. *)
Definition body_window (from_start : string) : string :=
  "def" ++ fst (cut "def" (drop 3 from_start)).

(** The high-complexity functions, scored over that window. *)
Definition detect_complexity (content : string) : list (string * nat) :=
  flat_map
    (fun m =>
       if 10 <? Assess.score (body_window (fst m))
       then [(snd m, Assess.score (body_window (fst m)))] else [])
    (finditer Assess.func_pattern content).

(** The task block as the specification words it: from one heading to
    the next heading or the end of the document, for the text from the
    heading on. *)
Definition task_block (from_heading : string) : string :=
  "####" ++ fst (cut "####" (drop 4 from_heading)).

(** The title as the specification words it: the first non-blank line of
    the block after the heading line itself. *)
Definition after_heading_line (block : string) : string :=
  match cut NL block with
  | (_, Some r) => r
  | (_, None) => ""
  end.

Fixpoint first_nonblank (l : list string) : string :=
  match l with
  | [] => ""
  | x :: rest => if String.eqb (strip x) "" then first_nonblank rest else strip x
  end.

Definition title (from_heading : string) : string :=
  first_nonblank (split_char nl (after_heading_line (task_block from_heading))).

End Claimed.

(** ** Sample inputs *)
Module Samples.
Import PyStr Assess Report Issues.

(** A Python function with eleven decision keywords in its body. *)
Definition busy_source : string :=
  Report.lines
    [ "def busy(x):";
      "    if x and x or x:";
      "        for i in x:";
      "            while i:";
      "                pass";
      "    elif x:";
      "        pass";
      "    try:";
      "        pass";
      "    except E:";
      "        pass";
      "    if x or x: pass" ].

(** Reports with the given findings. *)
Definition report_with (large : list (string * nat)) (todo : list string)
  : Results :=
  {| total_files := 12; total_lines := 4200;
     languages := [("Python", 12)];
     large_files := large; complex_functions := []; todos := todo;
     test_files := 3; framework := "Unknown" |}.

Definition eleven_large : list (string * nat) :=
  map (fun n => ("m" ++ str n ++ ".py", 500 + n)) (seq 1 11).

Definition some_todos (n : nat) : list string :=
  map (fun k => "m.py:" ++ str k ++ ": # TODO tidy") (seq 1 n).

(** The clock at two moments, and two listings of one root directory. *)
Definition morning : World :=
  {| now := "2024-05-01 09:00:00";
     top_level := [("docs", true); ("src", true)] |}.

Definition a_second_later : World :=
  {| now := "2024-05-01 09:00:01";
     top_level := [("docs", true); ("src", true)] |}.

Definition new_directory : World :=
  {| now := "2024-05-01 09:00:00";
     top_level := [("docs", true); ("src", true); ("tests", true)] |}.

Definition with_files : World :=
  {| now := "2024-05-01 09:00:00";
     top_level :=
       [(".git", true); ("README.md", false); ("docs", true); ("src", true)] |}.

(** A text of [n] lines. *)
Fixpoint text_of_lines (n : nat) : string :=
  match n with
  | 0 => ""
  | S k => "x = 1" ++ NL ++ text_of_lines k
  end.

Definition file (path : list string) (text : string) : Entry :=
  {| rel_parts := path; is_dir := false; content := Some text;
     read_before_error := "" |}.

(** Three large files of 520, 900 and 501 lines, met in that order. *)
Definition three_large : Tree :=
  {| root_parts := ["/"; "srv"; "legacy"];
     entries :=
       [ file ["a.py"] (text_of_lines 520);
         file ["pkg"; "b.py"] (text_of_lines 900);
         file ["web"; "c.js"] (text_of_lines 501) ];
     package_deps := None |}.

(** A plan with one task, its title on the heading line. *)
Definition plan_one : string :=
  Report.lines
    [ "# Refactor plan";
      "";
      "#### TASK-001: Add tests";
      "";
      "Cover the billing module first.";
      "**Priority**: High" ].

(** A task block without any label, and one that lacks only some. *)
Definition bare_block : string := "Tidy the imports".

Definition partial_block : string :=
  Report.lines
    [ "Split the views";
      "**Priority**: High";
      "**Effort**: 2 days";
      "**What**:";
      "- move the forms";
      "- move the filters" ].

(** A plan with three tasks, and a tracker, the number of requests it has
    had for state, that refuses the second request. *)
Definition plan_three : string :=
  Report.lines
    [ "#### TASK-1: First";
      "**Risk**: High";
      "#### TASK-2: Second";
      "#### TASK-3: Third";
      "**Priority**: low" ].

Definition refuse_second (calls : nat) (_ : IssueRequest) : Outcome * nat :=
  if calls =? 1 then (GitHubAPIError "server error", S calls)
  else (Issue (100 + calls), S calls).

Definition shouting : Task :=
  {| id := "TASK-9"; title := "Shout"; priority := "HIGH"; risk := "HIGH";
     effort := "TBD"; what := ""; why := ""; criteria := "";
     dependencies := "None" |}.

(** A detector that reports one function for every file. *)
Definition always_one (_ : option string) : list (string * nat) :=
  [("f", 11)].

End Samples.

(** ** Notions for the properties of the scripts beyond the claims *)
Module More.
Import PyStr Re Assess Report Issues.

(** The path parts for which [find_python_files] and [find_js_ts_files]
    skip a path. *)
Definition python_skipped (part : string) : bool :=
  startswith "." part || mem part ["venv"; ".venv"; "node_modules"].

Definition js_skipped (part : string) : bool :=
  startswith "." part || String.eqb part "node_modules".

(** A line that [find_todos] reports, and what it reports for the line
    of number [line_num]. *)
Definition marked (line : string) : bool :=
  contains "TODO" line || contains "FIXME" line.

Definition finding (e : Entry) (line_num : nat) (line : string) : string :=
  name e ++ ":" ++ str line_num ++ ": " ++ strip line.

(** A run of the class [c] ends before [rest]. *)
Definition stops (c : ascii -> bool) (rest : string) : bool :=
  match rest with
  | "" => true
  | String a _ => negb (c a)
  end.

(** A text whose last line has no newline at its end. *)
Fixpoint unterminated (s : string) : bool :=
  match s with
  | "" => false
  | String a "" => negb (Ascii.eqb a nl)
  | String _ s' => unterminated s'
  end.

(** A character of ASCII, the range on which [lower] and [upper] are
    Python's. *)
Definition isascii (a : ascii) : bool := nat_of_ascii a <? 128.

(** A character other than the asterisk that opens every label. *)
Definition nostar (a : ascii) : bool := negb (Ascii.eqb a "*").

(** The text of list items, each on a line of its own. *)
Definition item_lines (items : list string) : string :=
  String.concat "" (map (fun text => "- " ++ text ++ NL) items).









(** A project kept below a hidden directory. *)
Definition below_hidden : Tree :=
  {| root_parts := ["/"; "home"; "dev"; ".local"; "shop"];
     entries :=
       [ Samples.file ["app.py"] ("import os" ++ NL);
         Samples.file ["static"; "site.js"] ("// TODO minify" ++ NL) ];
     package_deps := None |}.

(** A text of one line: it holds no newline. *)
Definition one_line (s : string) : bool := all notnl s.

(** The lines that the list sections write for their entries, without
    the newline that ends each. *)
Definition large_file_line (x : string * nat) : string :=
  "- ❌ `" ++ fst x ++ "` (" ++ str_commas (snd x) ++
  " lines) - Consider splitting".

Definition complex_function_line (x : string * string * nat) : string :=
  "- ⚠️  `" ++ fst (fst x) ++ "::" ++ snd (fst x) ++ "` (complexity: " ++
  str (snd x) ++ ") - REFACTOR".

Definition todo_line (todo : string) : string := "- " ++ todo.

(** A report with more entries than the list sections show. *)
Definition crowded : Results :=
  {| total_files := 40; total_lines := 4800;
     languages := [("Python", 40)];
     large_files := Samples.eleven_large;
     complex_functions :=
       map (fun n => ("m" ++ str n ++ ".py", "run", 10 + n)) (seq 1 12);
     todos := Samples.some_todos 21;
     test_files := 3; framework := "Unknown" |}.

(** A small project: two Python files, one script, one note. *)
Definition small_project : Tree :=
  {| root_parts := ["/"; "srv"; "shop"];
     entries :=
       [ Samples.file ["app.py"]
           ("import os" ++ NL ++ "# TODO: split" ++ NL ++ "x = 1  # FIXME" ++ NL);
         Samples.file ["shop"; "views.py"] ("pass" ++ NL);
         Samples.file ["static"; "site.js"] ("// todo later" ++ NL);
         Samples.file ["README.md"] ("TODO list" ++ NL) ];
     package_deps := None |}.

(** A file whose first line is read before its decoding fails. *)
Definition broken_midway : Entry :=
  {| rel_parts := ["notes.py"]; is_dir := false; content := None;
     read_before_error := "# TODO a" ++ NL |}.

(** A tracker that files every request. *)
Definition file_all (calls : nat) (_ : IssueRequest) : Outcome * nat :=
  (Issue (1 + calls), S calls).

(** Two tasks that differ in the case of their priority and risk. *)
Definition quiet : Task :=
  {| id := "TASK-9"; title := "Shout"; priority := "high"; risk := "High";
     effort := "TBD"; what := ""; why := ""; criteria := "";
     dependencies := "None" |}.

End More.

Import PyStr Re Assess Report Issues.

(** * Properties *)

(** ** Text lemmas *)

Arguments startswith : simpl never.

Lemma startswith_nil (s : string) : startswith "" s = true.
Proof. destruct s; reflexivity. Qed.

Lemma startswith_length (p s : string) :
  startswith p s = true -> String.length p <= String.length s.
Proof.
  unfold startswith. revert s.
  induction p as [|a p IH]; intros s H; simpl; [lia|].
  destruct s as [|b s]; simpl in *; [discriminate|].
  destruct (ascii_dec a b); [|discriminate].
  apply IH in H. lia.
Qed.

Lemma startswith_app (p s t : string) :
  startswith p s = true -> startswith p (s ++ t) = true.
Proof.
  revert s.
  induction p as [|a p IH]; intros s H; [apply startswith_nil|].
  unfold startswith in *.
  destruct s as [|b s]; simpl in *; [discriminate|].
  destruct (ascii_dec a b); [auto|discriminate].
Qed.

Lemma startswith_app_long (p s t : string) :
  String.length p <= String.length s ->
  startswith p (s ++ t) = startswith p s.
Proof.
  revert s.
  induction p as [|a p IH]; intros s H; [now rewrite !startswith_nil|].
  unfold startswith in *.
  destruct s as [|b s]; simpl in *; [lia|].
  destruct (ascii_dec a b); [apply IH; lia|reflexivity].
Qed.

Lemma startswith_self (p t : string) : startswith p (p ++ t) = true.
Proof.
  induction p as [|a p IH]; [apply startswith_nil|].
  unfold startswith in *. simpl.
  destruct (ascii_dec a a); [assumption|congruence].
Qed.

Lemma length_app (s t : string) :
  String.length (s ++ t) = String.length s + String.length t.
Proof. induction s as [|a s IH]; simpl; [reflexivity|now rewrite IH]. Qed.

Lemma app_nil_r (s : string) : s ++ "" = s.
Proof. induction s as [|a s IH]; simpl; [reflexivity|now rewrite IH]. Qed.

Lemma app_assoc (s t u : string) : (s ++ t) ++ u = s ++ t ++ u.
Proof. induction s as [|a s IH]; simpl; [reflexivity|now rewrite IH]. Qed.

(** ** Counting occurrences *)

Lemma count_from_short (sub s : string) (skip : nat) :
  String.length s < skip + String.length sub -> count_from sub s skip = 0.
Proof.
  revert skip. induction s as [|a s IH]; intros skip H; simpl; [reflexivity|].
  simpl in H. destruct skip as [|k].
  - destruct (startswith sub (String a s)) eqn:E.
    + apply startswith_length in E. simpl in E. lia.
    + apply IH. lia.
  - apply IH. lia.
Qed.

Lemma count_from_app_le (sub s t : string) (skip : nat) :
  count_from sub s skip <= count_from sub (s ++ t) skip.
Proof.
  revert skip. induction s as [|a s IH]; intros skip; simpl; [lia|].
  destruct skip as [|k]; [|apply IH].
  destruct (startswith sub (String a s)) eqn:E.
  - change (String a (s ++ t)) with (String a s ++ t).
    rewrite (startswith_app _ _ t E). specialize (IH (String.length sub - 1)). lia.
  - change (String a (s ++ t)) with (String a s ++ t).
    destruct (startswith sub (String a s ++ t)) eqn:E'; [|apply IH].
    destruct (Nat.le_gt_cases (String.length sub) (String.length (String a s)))
      as [L|L].
    + rewrite (startswith_app_long _ _ t L) in E'. congruence.
    + rewrite (count_from_short sub s 0); [lia|]. simpl in L. lia.
Qed.

Lemma count_from_app_self (sub s : string) (skip : nat) :
  sub <> "" -> skip <= String.length s ->
  count_from sub (s ++ sub) skip = S (count_from sub s skip).
Proof.
  intros Hsub. revert skip.
  induction s as [|a s IH]; intros skip H.
  - simpl in H. assert (skip = 0) by lia. subst skip. simpl.
    destruct sub as [|b sub']; [congruence|].
    simpl. pose proof (startswith_self (String b sub') "") as E.
    rewrite app_nil_r in E. rewrite E.
    rewrite count_from_short; [reflexivity|]. simpl. lia.
  - simpl in H. simpl. destruct skip as [|k]; [|apply IH; lia].
    change (String a (s ++ sub)) with (String a s ++ sub).
    destruct (startswith sub (String a s)) eqn:E.
    + rewrite (startswith_app _ _ sub E). f_equal. apply IH.
      apply startswith_length in E. simpl in E. lia.
    + destruct (startswith sub (String a s ++ sub)) eqn:E'.
      * destruct (Nat.le_gt_cases (String.length sub) (String.length (String a s)))
          as [L|L].
        { rewrite (startswith_app_long _ _ sub L) in E'. congruence. }
        simpl in L.
        rewrite (count_from_short sub (s ++ sub)); [|rewrite length_app; lia].
        rewrite (count_from_short sub s 0); [reflexivity|lia].
      * apply IH. lia.
Qed.

Lemma count_app_le (sub s t : string) : count sub s <= count sub (s ++ t).
Proof.
  destruct sub as [|b sub']; simpl.
  - rewrite length_app. lia.
  - apply count_from_app_le.
Qed.

Lemma count_app_self (sub s : string) :
  sub <> "" -> count sub (s ++ sub) = S (count sub s).
Proof.
  intros H. destruct sub as [|b sub']; [congruence|].
  unfold count. apply count_from_app_self; [assumption|lia].
Qed.

(** ** The complexity heuristic *)

Lemma func_pattern_starts (s : string) (x : string * string) :
  func_pattern s = Some x -> startswith "def" s = true.
Proof.
  unfold func_pattern, bind, lit. destruct (startswith "def" s); [reflexivity|discriminate].
Qed.

Lemma finditer_from_starts {A : Type} (m : matcher A) (P : string -> Prop) :
  (forall s x, m s = Some x -> P s) ->
  forall s skip, Forall (fun found => P (fst found)) (finditer_from m s skip).
Proof.
  intros Hm. induction s as [|a s IH]; intros skip.
  - destruct skip; simpl; [|constructor].
    destruct (m "") as [[v rest]|] eqn:E; constructor; [|constructor].
    apply (Hm _ _ E).
  - destruct skip as [|k]; simpl; [|apply IH].
    destruct (m (String a s)) as [[v rest]|] eqn:E; [|apply IH].
    constructor; [apply (Hm _ _ E)|apply IH].
Qed.

Lemma body_window_empty (from_start : string) :
  startswith "def" from_start = true -> Assess.body_window from_start = "".
Proof.
  intros H. unfold Assess.body_window, split1.
  destruct from_start as [|a s]; [discriminate|].
  unfold cut. rewrite H. reflexivity.
Qed.

Lemma complexity_zero (from_start : string) :
  startswith "def" from_start = true -> complexity from_start = 0.
Proof. intros H. unfold complexity. rewrite body_window_empty by assumption. reflexivity. Qed.

(** C1. The complexity heuristic counts the keywords in
    [content[func.start():].split('def', 1)[0]]. The text from the start of
    a match opens with the keyword [def] itself, so that window is empty
    for every match: every score is 0 and no function is ever reported.
    The claim's window runs to the next [def]; over it the sample function
    scores 11 and is reported. *)
Theorem C1_detect_complexity_reports_nothing :
  (forall content, Assess.detect_complexity content = []) /\
  Assess.detect_complexity (Some Samples.busy_source) = [] /\
  Claimed.detect_complexity Samples.busy_source = [("busy", 11)].
Proof.
  split; [|split; vm_compute; reflexivity].
  intros [text|]; [|reflexivity].
  unfold Assess.detect_complexity, detect_complexity_text, finditer.
  pose proof (finditer_from_starts func_pattern
                (fun s => startswith "def" s = true)
                func_pattern_starts text 0) as H.
  induction H as [|[from_start func_name] l Hx _ IH]; [reflexivity|].
  simpl in *. rewrite (complexity_zero _ Hx). simpl. exact IH.
Qed.

(** C7. [score] adds up the counts of the seven keywords in a text; a
    keyword added at the end of the text is one more occurrence of itself
    and takes no occurrence away, so the score grows by at least one. *)
Theorem C7_score_grows_with_appended_keyword (window keyword : string) :
  In keyword keywords ->
  count keyword (window ++ keyword) = S (count keyword window) /\
  score window + 1 <= score (window ++ keyword).
Proof.
  intros H.
  assert (Hne : keyword <> "").
  { unfold keywords in H. simpl in H.
    intuition (subst; discriminate). }
  split; [apply count_app_self; assumption|].
  pose proof (count_app_self keyword window Hne) as E.
  pose proof (fun sub => count_app_le sub window keyword) as L.
  unfold score, keywords in *. cbn [map list_sum fold_right In] in *.
  pose proof (L "if"); pose proof (L "for"); pose proof (L "while");
  pose proof (L "and"); pose proof (L "or"); pose proof (L "elif");
  pose proof (L "except").
  destruct H as [H|[H|[H|[H|[H|[H|[H|[]]]]]]]]; subst keyword; lia.
Qed.

Lemma C7_witness :
  count "while" ("x = 1 " ++ "while") = S (count "while" "x = 1 ") /\
  score "x = 1 " + 1 <= score ("x = 1 " ++ "while").
Proof.
  apply (C7_score_grows_with_appended_keyword "x = 1 " "while").
  unfold keywords. simpl. tauto.
Defined.

(** C7, as stated: a keyword inserted in the body of a function leaves the
    computed score where it was; in the score itself [for] counts twice,
    as it holds [or], and [or] inserted inside an [if] takes that [if]
    away. *)
Lemma C7_counterexample :
  complexity ("def f(x): " ++ "if" ++ " pass") <>
    complexity ("def f(x): " ++ " pass") + 1 /\
  score ("x" ++ "for") <> score "x" + 1 /\
  score ("i" ++ "or" ++ "f") <> score ("i" ++ "f") + 1.
Proof. repeat split; vm_compute; discriminate. Qed.

(** ** The analysis loops *)

Lemma python_loop detect (files : list Entry) (r : Results) :
  large_files (fold_left (python_step detect) files r) =
    (large_files r ++ flat_map large_entry files)%list /\
  complex_functions (fold_left (python_step detect) files r) =
    (complex_functions r ++ flat_map (complex_entries detect) files)%list.
Proof.
  revert r. induction files as [|f files IH]; intros r; simpl.
  - now rewrite !List.app_nil_r.
  - destruct (IH (python_step detect r f)) as [E1 E2]. rewrite E1, E2.
    unfold large_entry, complex_entries. simpl.
    destruct (500 <? count_lines f); simpl;
      rewrite <- ?List.app_assoc; simpl; rewrite ?List.app_nil_r; auto.
Qed.

Lemma js_loop (files : list Entry) (r : Results) :
  large_files (fold_left js_step files r) =
    (large_files r ++ flat_map large_entry files)%list /\
  complex_functions (fold_left js_step files r) = complex_functions r.
Proof.
  revert r. induction files as [|f files IH]; intros r; simpl.
  - now rewrite List.app_nil_r.
  - destruct (IH (js_step r f)) as [E1 E2]. rewrite E1, E2.
    unfold large_entry. simpl.
    destruct (500 <? count_lines f); simpl;
      rewrite <- ?List.app_assoc; auto.
Qed.

Lemma enter_language_keeps (label : string) (files : list Entry) (r : Results) :
  large_files (enter_language label files r) = large_files r /\
  complex_functions (enter_language label files r) = complex_functions r.
Proof. destruct files; split; reflexivity. Qed.

Lemma analyze_large_files detect (t : Tree) :
  large_files (analyze_codebase_with detect t) =
  flat_map large_entry (find_python_files t ++ find_js_ts_files t)%list.
Proof.
  unfold analyze_codebase_with. cbn [large_files].
  rewrite (proj1 (js_loop _ _)), (proj1 (enter_language_keeps _ _ _)).
  rewrite (proj1 (python_loop _ _ _)), (proj1 (enter_language_keeps _ _ _)).
  simpl. now rewrite flat_map_app.
Qed.

Lemma analyze_complex_functions detect (t : Tree) :
  complex_functions (analyze_codebase_with detect t) =
  flat_map (complex_entries detect) (find_python_files t).
Proof.
  unfold analyze_codebase_with. cbn [complex_functions].
  rewrite (proj2 (js_loop _ _)), (proj2 (enter_language_keeps _ _ _)).
  rewrite (proj2 (python_loop _ _ _)), (proj2 (enter_language_keeps _ _ _)).
  reflexivity.
Qed.

(** ** The stable descending sort *)

Section SortedDesc.
Context {A : Type} (key : A -> nat).

Lemma insert_desc_perm (x : A) (l : list A) :
  Permutation (x :: l) (insert_desc key x l).
Proof.
  induction l as [|y l IH]; simpl; [apply Permutation_refl|].
  destruct (key y <=? key x); [apply Permutation_refl|].
  eapply perm_trans; [apply perm_swap|]. now apply perm_skip.
Qed.

Lemma sorted_desc_perm (l : list A) : Permutation l (sorted_desc key l).
Proof.
  induction l as [|x l IH]; simpl; [constructor|].
  eapply perm_trans; [apply perm_skip, IH|apply insert_desc_perm].
Qed.

Lemma insert_desc_sorted (x : A) (l : list A) :
  StronglySorted (desc key) l -> StronglySorted (desc key) (insert_desc key x l).
Proof.
  induction 1 as [|y l Hs IH Hy]; simpl.
  - constructor; constructor.
  - destruct (key y <=? key x) eqn:E.
    + apply Nat.leb_le in E. constructor; [now constructor|].
      constructor; [exact E|].
      eapply Forall_impl; [|exact Hy]. unfold desc. intros z Hz. lia.
    + apply Nat.leb_gt in E. constructor; [exact IH|].
      eapply Permutation_Forall; [apply insert_desc_perm|].
      constructor; [unfold desc; lia|exact Hy].
Qed.

Lemma sorted_desc_sorted (l : list A) : StronglySorted (desc key) (sorted_desc key l).
Proof.
  induction l as [|x l IH]; simpl; [constructor|now apply insert_desc_sorted].
Qed.

Lemma insert_desc_stable (n : nat) (x : A) (l : list A) :
  filter (fun y => key y =? n) (insert_desc key x l) =
  filter (fun y => key y =? n) (x :: l).
Proof.
  induction l as [|y l IH]; [reflexivity|].
  cbn [insert_desc]. destruct (key y <=? key x) eqn:E; [reflexivity|].
  apply Nat.leb_gt in E. cbn [filter] in *. rewrite IH.
  destruct (key x =? n) eqn:Ex; [|reflexivity].
  apply Nat.eqb_eq in Ex.
  destruct (key y =? n) eqn:Ey; [|reflexivity].
  apply Nat.eqb_eq in Ey. lia.
Qed.

Lemma sorted_desc_stable (n : nat) (l : list A) :
  filter (fun y => key y =? n) (sorted_desc key l) =
  filter (fun y => key y =? n) l.
Proof.
  induction l as [|x l IH]; [reflexivity|].
  cbn [sorted_desc fold_right]. rewrite insert_desc_stable.
  cbn [filter]. fold (sorted_desc key l). now rewrite IH.
Qed.

Lemma sorted_desc_length (l : list A) :
  List.length (sorted_desc key l) = List.length l.
Proof. symmetry. apply Permutation_length, sorted_desc_perm. Qed.

End SortedDesc.

(** ** The report *)

Lemma concat_cons (x : string) (l : list string) :
  String.concat "" (x :: l) = x ++ String.concat "" l.
Proof. destruct l; simpl; [now rewrite app_nil_r|reflexivity]. Qed.

Lemma current_structure_from (l : list (string * bool)) (report : string) :
  fold_left
    (fun report item =>
       if snd item && negb (startswith "." (fst item))
       then report ++ fst item ++ "/" ++ NL
       else report)
    l report =
  report ++ String.concat "" (map (fun d => d ++ "/" ++ NL) (visible_dirs l)).
Proof.
  revert report. unfold visible_dirs.
  induction l as [|item l IH]; intros report; simpl.
  - now rewrite app_nil_r.
  - destruct (snd item && negb (startswith "." (fst item))).
    + rewrite IH. cbn [filter map]. rewrite concat_cons, !app_assoc. reflexivity.
    + apply IH.
Qed.

Lemma current_structure_visible (w : World) :
  current_structure w =
  String.concat "" (map (fun d => d ++ "/" ++ NL) (visible_dirs (top_level w))).
Proof. unfold current_structure. now rewrite current_structure_from. Qed.

(** C2. Rendering reads the clock for the line [Generated:] and lists the
    root directory for the block [Current Structure]; the report alone
    does not fix the text. Two renderings of one report are the same text
    when they read the same time and find the same directories that are
    not hidden. *)
Theorem C2_rendering_fixed_by_report_clock_and_directories
    (w1 w2 : World) (results : Results) :
  now w1 = now w2 ->
  visible_dirs (top_level w1) = visible_dirs (top_level w2) ->
  generate_assessment_report w1 results = generate_assessment_report w2 results.
Proof.
  intros Hnow Hdirs. unfold generate_assessment_report, summary.
  rewrite !current_structure_visible, Hnow, Hdirs. reflexivity.
Qed.

Lemma C2_witness :
  generate_assessment_report Samples.morning (Samples.report_with [] []) =
  generate_assessment_report Samples.with_files (Samples.report_with [] []).
Proof.
  apply (C2_rendering_fixed_by_report_clock_and_directories
           Samples.morning Samples.with_files); reflexivity.
Defined.

(** C2, as stated: one report rendered a second later, or after a
    directory was added to the root, gives another text. *)
Lemma C2_counterexample :
  generate_assessment_report Samples.morning (Samples.report_with [] []) <>
    generate_assessment_report Samples.a_second_later (Samples.report_with [] [])
  /\
  generate_assessment_report Samples.morning (Samples.report_with [] []) <>
    generate_assessment_report Samples.new_directory (Samples.report_with [] []).
Proof. split; apply String.eqb_neq; vm_compute; reflexivity. Qed.

Lemma firstn_min {A : Type} (n : nat) (l : list A) :
  List.length (firstn n l) = Nat.min n (List.length l).
Proof.
  revert l. induction n as [|n IH]; intros [|x l]; simpl; auto.
Qed.

(** C8. [analyze_codebase] leaves [large_files] in the order the files
    were met, the Python files before the JavaScript and TypeScript ones;
    the order by line count is made by the renderer, which lists
    [sorted(large_files, key=lines, reverse=True)]: descending, a
    rearrangement of the list, entries of equal line count in the order
    they were met. *)
Theorem C8_large_files_met_in_order_sorted_when_rendered
    (t : Tree) (results : Results) :
  large_files (analyze_codebase t) =
    flat_map large_entry (find_python_files t ++ find_js_ts_files t)%list /\
  large_files_shown results = firstn 10 (sorted_desc snd (large_files results)) /\
  StronglySorted (desc snd) (sorted_desc snd (large_files results)) /\
  Permutation (large_files results) (sorted_desc snd (large_files results)) /\
  (forall n,
     filter (fun x => snd x =? n) (sorted_desc snd (large_files results)) =
     filter (fun x => snd x =? n) (large_files results)) /\
  map snd (sorted_desc snd [("a.py", 520); ("b.py", 900); ("c.js", 501)]) =
    [900; 520; 501].
Proof.
  split; [apply analyze_large_files|].
  split; [reflexivity|].
  split; [apply (sorted_desc_sorted snd)|].
  split; [apply sorted_desc_perm|].
  split; [intros n; apply sorted_desc_stable|reflexivity].
Qed.

(** C8, as stated: for files of 520, 900 and 501 lines the list in the
    report of the analysis is in the order they were met. *)
Lemma C8_counterexample :
  map snd (large_files (analyze_codebase Samples.three_large)) = [520; 900; 501].
Proof. vm_compute. reflexivity. Qed.

(** C10. The complex functions of an analysis are those that the detector
    reports for the Python files found, whatever the detector: each entry
    bears the path of a file that [find_python_files] returned, whose name
    ends in [.py]. The loop over the JavaScript and TypeScript files adds
    none. *)
Theorem C10_complex_functions_only_from_python_files
    (detect : option string -> list (string * nat)) (t : Tree) :
  complex_functions (analyze_codebase_with detect t) =
    flat_map (complex_entries detect) (find_python_files t) /\
  Forall
    (fun entry =>
       exists f, In f (find_python_files t) /\
                 fst (fst entry) = relative f /\
                 endswith ".py" (name f) = true)
    (complex_functions (analyze_codebase_with detect t)) /\
  complex_functions (analyze_codebase t) =
    flat_map (complex_entries detect_complexity) (find_python_files t).
Proof.
  split; [apply analyze_complex_functions|].
  split; [|apply analyze_complex_functions].
  rewrite analyze_complex_functions.
  apply Forall_forall. intros entry Hin.
  apply in_flat_map in Hin. destruct Hin as (f & Hf & Hentry).
  exists f. split; [exact Hf|].
  unfold complex_entries in Hentry. apply in_map_iff in Hentry.
  destruct Hentry as ([func_name complexity] & <- & _).
  split; [reflexivity|].
  unfold find_python_files, rglob in Hf.
  apply filter_In in Hf. destruct Hf as [Hf _].
  apply filter_In in Hf. destruct Hf as [_ Hg].
  unfold glob in Hg. apply andb_true_iff in Hg. apply Hg.
Qed.

Example complex_functions_with_a_reporting_detector :
  complex_functions (analyze_codebase_with Samples.always_one Samples.three_large) =
  [("a.py", "f", 11); ("pkg/b.py", "f", 11)].
Proof. vm_compute. reflexivity. Qed.

(** ** The plan parser: fields *)

Lemma word_field_starts (label s : string) (x : string * string) :
  word_field label s = Some x -> startswith label s = true.
Proof.
  unfold word_field, bind, lit. destruct (startswith label s); [reflexivity|discriminate].
Qed.

Lemma line_field_starts (label s : string) (x : string * string) :
  line_field label s = Some x -> startswith label s = true.
Proof.
  unfold line_field, bind, lit. destruct (startswith label s); [reflexivity|discriminate].
Qed.

Lemma block_field_starts (label : string) item (s : string) (x : string * string) :
  block_field label item s = Some x -> startswith label s = true.
Proof.
  unfold block_field, bind, lit. destruct (startswith label s); [reflexivity|discriminate].
Qed.



Example partial_block_keeps_its_fields :
  parse_task "7" Samples.partial_block =
  {| id := "TASK-7"; title := "Split the views"; priority := "high";
     risk := "medium"; effort := "2 days";
     what := "- move the forms" ++ NL ++ "- move the filters";
     why := ""; criteria := ""; dependencies := "None" |}.
Proof. vm_compute. reflexivity. Qed.

(** ** Labels *)

Lemma lower_char_idempotent (a : ascii) : lower_char (lower_char a) = lower_char a.
Proof. destruct a as [[] [] [] [] [] [] [] []]; vm_compute; reflexivity. Qed.

Lemma lower_idempotent (s : string) : lower (lower s) = lower s.
Proof.
  unfold lower. induction s as [|a s IH]; simpl; [reflexivity|].
  now rewrite lower_char_idempotent, IH.
Qed.

Lemma extract_lower (m : matcher string) (text : string) :
  lower (extract m lower "medium" text) = extract m lower "medium" text.
Proof.
  unfold extract. destruct (search m text); [apply lower_idempotent|reflexivity].
Qed.

Lemma parsed_task_lower (content : string) (task : Task) :
  In task (parse_refactor_plan content) ->
  lower (priority task) = priority task /\ lower (risk task) = risk task.
Proof.
  unfold parse_refactor_plan. intros H. apply in_map_iff in H.
  destruct H as (m & <- & _). unfold parse_task. cbn [priority risk].
  split; apply extract_lower.
Qed.

(** C9. The labels of a task are [modernization], the priority label and,
    when the risk in lower case is [high], [high-risk]. The priority label
    is read off the priority in lower case: [urgent] and [high] in any
    case of letters give [priority:high], [low] gives [priority:low],
    everything else [priority:medium]. The tasks of a parsed plan have
    priority and risk in lower case already. *)
Theorem C9_labels_and_title (task : Task) (p : string) :
  labels (issue_request task) =
    "modernization" :: get_priority_label (priority task) ::
    (if String.eqb (lower (risk task)) "high" then ["high-risk"] else []) /\
  get_priority_label p =
    (if String.eqb (lower p) "urgent" || String.eqb (lower p) "high"
     then "priority:high"
     else if String.eqb (lower p) "low" then "priority:low"
     else "priority:medium") /\
  issue_title (issue_request task) =
    "[Modernization] " ++ id task ++ ": " ++ title task /\
  (forall content, In task (parse_refactor_plan content) ->
     lower (priority task) = priority task /\ lower (risk task) = risk task).
Proof.
  split; [reflexivity|]. split; [|split; [reflexivity|]].
  - unfold get_priority_label, get.
    rewrite !(String.eqb_sym _ (lower p)).
    destruct (String.eqb (lower p) "urgent"); [reflexivity|].
    destruct (String.eqb (lower p) "high"); [reflexivity|].
    destruct (String.eqb (lower p) "medium") eqn:E; [|reflexivity].
    apply String.eqb_eq in E. rewrite E. reflexivity.
  - intros content. apply parsed_task_lower.
Qed.

Lemma C9_witness :
  let task :=
    parse_task "001"
      ("Add tests" ++ NL ++ NL ++ "Cover the billing module first." ++ NL ++
       "**Priority**: High") in
  In task (parse_refactor_plan Samples.plan_one) /\
  priority task = "high" /\
  lower (priority task) = priority task /\ lower (risk task) = risk task.
Proof.
  cbn zeta.
  assert (H : In (parse_task "001"
                    ("Add tests" ++ NL ++ NL ++
                     "Cover the billing module first." ++ NL ++
                     "**Priority**: High"))
                 (parse_refactor_plan Samples.plan_one))
    by (vm_compute; left; reflexivity).
  split; [exact H|]. split; [vm_compute; reflexivity|].
  exact (proj2 (proj2 (proj2 (C9_labels_and_title _ "")))
           Samples.plan_one H).
Defined.

(** C9, as stated: [HIGH] is none of the four priorities and its label is
    [priority:high]; a risk of [HIGH] is not [high] and the task is
    labelled [high-risk]. *)
Lemma C9_counterexample :
  get_priority_label "HIGH" = "priority:high" /\
  "HIGH" <> "urgent" /\ "HIGH" <> "high" /\
  "HIGH" <> "medium" /\ "HIGH" <> "low" /\
  risk Samples.shouting <> "high" /\
  labels (issue_request Samples.shouting) =
    ["modernization"; "priority:high"; "high-risk"].
Proof. repeat split; try discriminate; reflexivity. Qed.

(** ** The batch of issues *)

Section Batch.
Context (Tracker : Type)
        (create_issue : Tracker -> IssueRequest -> Outcome * Tracker).

Lemma publish_after_raise (tasks : list Task) (st : Loop Tracker) :
  raised Tracker st = true ->
  fold_left (publish Tracker create_issue) tasks st = st.
Proof.
  intros H. induction tasks as [|task tasks IH]; [reflexivity|].
  cbn [fold_left]. unfold publish at 2. now rewrite H.
Qed.

Lemma publish_loop (tasks : list Task) (st : Loop Tracker) :
  raised Tracker st = false ->
  let st' := fold_left (publish Tracker create_issue) tasks st in
  let answers := outcomes Tracker create_issue (api Tracker st) tasks in
  sent Tracker st' =
    (sent Tracker st ++ map issue_request (map fst answers))%list /\
  created Tracker st' = (created Tracker st ++ successes answers)%list /\
  failed Tracker st' = (failed Tracker st ++ failures answers)%list /\
  raised Tracker st' = existsb is_other (map snd answers).
Proof.
  revert st. induction tasks as [|task tasks IH]; intros st Hst; cbn zeta.
  - simpl. now rewrite !List.app_nil_r.
  - cbn [fold_left outcomes]. unfold publish at 2 4 6 8. rewrite Hst.
    destruct (create_issue (api Tracker st) (issue_request task))
      as [[number|message|message] a'] eqn:E.
    + match goal with
      | |- context [fold_left _ tasks ?s] =>
          destruct (IH s eq_refl) as (E1 & E2 & E3 & E4)
      end.
      cbn zeta in E1, E2, E3, E4. rewrite E1, E2, E3, E4.
      cbn [sent created failed api raised is_other successes failures flat_map
           map fst snd existsb orb].
      rewrite <- !List.app_assoc. auto.
    + match goal with
      | |- context [fold_left _ tasks ?s] =>
          destruct (IH s eq_refl) as (E1 & E2 & E3 & E4)
      end.
      cbn zeta in E1, E2, E3, E4. rewrite E1, E2, E3, E4.
      cbn [sent created failed api raised is_other successes failures flat_map
           map fst snd existsb orb].
      rewrite <- !List.app_assoc. auto.
    + rewrite publish_after_raise by reflexivity.
      cbn [sent created failed api raised is_other successes failures flat_map
           map fst snd existsb orb List.app].
      rewrite !List.app_nil_r. auto.
Qed.

Lemma outcomes_tasks (tasks : list Task) (a : Tracker) :
  existsb is_other (map snd (outcomes Tracker create_issue a tasks)) = false ->
  map fst (outcomes Tracker create_issue a tasks) = tasks.
Proof.
  revert a. induction tasks as [|task tasks IH]; intros a; [reflexivity|].
  cbn [outcomes]. destruct (create_issue a (issue_request task)) as [o a'].
  cbn [map fst snd existsb]. intros H. apply orb_false_iff in H.
  destruct H as [Ho H]. rewrite Ho in *. now rewrite (IH a' H).
Qed.

Lemma outcomes_in_order (tasks : list Task) (a : Tracker) :
  exists rest,
    tasks = (map fst (outcomes Tracker create_issue a tasks) ++ rest)%list.
Proof.
  revert a. induction tasks as [|task tasks IH]; intros a; [now exists []|].
  cbn [outcomes]. destruct (create_issue a (issue_request task)) as [o a'].
  destruct (is_other o).
  - exists tasks. reflexivity.
  - destruct (IH a') as [rest E]. exists rest. cbn [map fst List.app].
    now rewrite <- E.
Qed.

End Batch.

(** C6. A refusal of the tracker ([GitHubAPIError]) for one task is
    recorded and the loop goes on: the tasks are sent in the order of the
    plan, each task that got an issue is recorded with its number and
    each refused one as failed, and all of them are sent unless an
    exception that [main] does not catch ends the run. The run ends with
    1 when the plan file is missing or cannot be read, when the plan
    holds no task, when the tracker client cannot be set up, when a task
    failed, or when such an exception left the loop; with 0 otherwise. *)
Theorem C6_batch_goes_on_and_exit_code
    (Tracker : Type) (create_issue : Tracker -> IssueRequest -> Outcome * Tracker)
    (plan : PlanFile) (connect : Setup Tracker) :
  let run := main Tracker create_issue plan connect in
  (exit_code run = 0 \/ exit_code run = 1) /\
  (exit_code run <> 0 <->
     plan = Missing \/ plan = Unreadable \/
     (exists content,
        plan = Readable content /\ parse_refactor_plan content = []) \/
     connect = Refused \/ connect = Failed \/
     failed_issues run <> [] \/ uncaught run = true) /\
  (forall content a,
     plan = Readable content -> parse_refactor_plan content <> [] ->
     connect = Client a ->
     let answers :=
       outcomes Tracker create_issue a (parse_refactor_plan content) in
     requests run = map issue_request (map fst answers) /\
     created_issues run = successes answers /\
     failed_issues run = failures answers /\
     uncaught run = existsb is_other (map snd answers) /\
     (exists rest,
        parse_refactor_plan content = (map fst answers ++ rest)%list) /\
     (uncaught run = false -> map fst answers = parse_refactor_plan content)).
Proof.
  cbn zeta. unfold main.
  destruct plan as [| |content].
  { split; [right; reflexivity|]. split; [|intros; discriminate].
    split; [intros _; left; reflexivity|intros _; discriminate]. }
  { split; [right; reflexivity|]. split; [|intros; discriminate].
    split; [intros _; right; left; reflexivity|intros _; discriminate]. }
  destruct (parse_refactor_plan content) as [|task tasks] eqn:Et.
  { split; [right; reflexivity|]. split; [|intros c a [= <-]; congruence].
    split; [intros _; right; right; left; exists content; auto
           |intros _; discriminate]. }
  destruct connect as [a| |].
  2:{ split; [right; reflexivity|]. split; [|intros; discriminate].
      split; [intros _; do 3 right; left; reflexivity|intros _; discriminate]. }
  2:{ split; [right; reflexivity|]. split; [|intros; discriminate].
      split; [intros _; do 4 right; left; reflexivity|intros _; discriminate]. }
  cbn [exit_code failed_issues created_issues requests uncaught].
  destruct (publish_loop Tracker create_issue (task :: tasks)
              {| api := a; created := []; failed := []; sent := [];
                 raised := false |} eq_refl)
    as (E1 & E2 & E3 & E4).
  fold (publish_all Tracker create_issue a (task :: tasks)) in E1, E2, E3, E4.
  cbn [api created failed sent List.app] in E1, E2, E3, E4.
  split.
  { destruct (raised Tracker _); [now right|].
    destruct (failed Tracker _); auto. }
  split.
  - split.
    + intros H. do 5 right.
      destruct (raised Tracker _); [now right|left].
      destruct (failed Tracker _); [congruence|discriminate].
    + intros [H|[H|[(c & [= <-] & H)|[H|[H|[H|H]]]]]]; try discriminate.
      * congruence.
      * destruct (raised Tracker _); [discriminate|].
        destruct (failed Tracker _); [congruence|discriminate].
      * rewrite H. discriminate.
  - intros c a0 [= <-] _ [= <-]. rewrite Et.
    split; [exact E1|]. split; [exact E2|]. split; [exact E3|].
    split; [exact E4|]. split; [apply outcomes_in_order|].
    intros H. rewrite E4 in H. now apply outcomes_tasks.
Qed.

Lemma C6_witness :
  let run :=
    main nat Samples.refuse_second (Readable Samples.plan_three) (Client 0) in
  map issue_title (requests run) =
    ["[Modernization] TASK-1: First"; "[Modernization] TASK-2: Second";
     "[Modernization] TASK-3: Third"] /\
  created_issues run = [("TASK-1", 100); ("TASK-3", 102)] /\
  failed_issues run = ["TASK-2"] /\
  exit_code run <> 0.
Proof.
  cbn zeta.
  destruct (C6_batch_goes_on_and_exit_code nat Samples.refuse_second
              (Readable Samples.plan_three) (Client 0)) as (_ & Hexit & Hloop).
  cbn zeta in Hexit, Hloop.
  destruct (Hloop Samples.plan_three 0 eq_refl) as (Hr & Hc & Hf & _);
    [vm_compute; discriminate|reflexivity|].
  rewrite Hr, Hc, Hf. repeat split; try (vm_compute; reflexivity).
  apply Hexit. do 5 right. left. rewrite Hf. vm_compute. discriminate.
Defined.

(** C6, as stated: the plan file is there, the plan holds tasks and no
    task failed, for none was sent; the tracker client could not be set
    up and the run ends with 1. *)
Lemma C6_counterexample :
  let run :=
    main nat Samples.refuse_second (Readable Samples.plan_three) Refused in
  parse_refactor_plan Samples.plan_three <> [] /\
  requests run = [] /\ failed_issues run = [] /\ exit_code run = 1.
Proof. cbn zeta. repeat split; vm_compute; try reflexivity; discriminate. Qed.

(** ** The plan parser: the heading and the title *)

Lemma drop_app (p t : string) : drop (String.length p) (p ++ t) = t.
Proof. induction p as [|a p IH]; simpl; [now destruct t|exact IH]. Qed.

Lemma lit_app (p t : string) : lit p (p ++ t) = Some t.
Proof. unfold lit. now rewrite startswith_self, drop_app. Qed.

Lemma first_some_head {A B : Type} (k : A -> option B) (x : A) (l : list A) (y : B) :
  k x = Some y -> first_some k (x :: l) = Some y.
Proof. intros H. simpl. now rewrite H. Qed.

Lemma first_some_consume {B : Type} (k : string * string -> option B)
    (a : ascii) (l : alts) :
  first_some k (consume a l) =
  first_some (fun p => k (String a (fst p), snd p)) l.
Proof.
  unfold consume. induction l as [|x l IH]; simpl; [reflexivity|].
  destruct (k (String a (fst x), snd x)); [reflexivity|exact IH].
Qed.

Lemma first_some_ext {A B : Type} (k k' : A -> option B) (l : list A) :
  (forall x, k x = k' x) -> first_some k l = first_some k' l.
Proof.
  intros H. induction l as [|x l IH]; simpl; [reflexivity|].
  now rewrite H, IH.
Qed.

Lemma block_stop_consume (task_id acc : string) (a : ascii) (l : alts) :
  first_some (block_stop task_id acc) (consume a l) =
  first_some (block_stop task_id (acc ++ String a "")) l.
Proof.
  rewrite first_some_consume. apply first_some_ext.
  intros [m r]. unfold block_stop. cbn [fst snd].
  now rewrite app_assoc.
Qed.

(** The longest run of a class comes first. *)
Lemma star_run (c : ascii -> bool) (d : string) (a : ascii) (t : string) :
  all c d = true -> c a = false ->
  exists l, star c (d ++ String a t) = (d, String a t) :: l.
Proof.
  intros Hd Ha. induction d as [|b d IH]; simpl.
  - rewrite Ha. now exists [].
  - simpl in Hd. apply andb_true_iff in Hd. destruct Hd as [Hb Hd].
    rewrite Hb. destruct (IH Hd) as [l E]. rewrite E. simpl. eauto.
Qed.

Lemma plus_run (c : ascii -> bool) (d : string) (a : ascii) (t : string) :
  d <> "" -> all c d = true -> c a = false ->
  exists l, plus c (d ++ String a t) = (d, String a t) :: l.
Proof.
  intros Hne Hd Ha. destruct d as [|b d]; [congruence|].
  simpl in *. apply andb_true_iff in Hd. destruct Hd as [Hb Hd].
  rewrite Hb. destruct (star_run c d a t Hd Ha) as [l E]. rewrite E.
  simpl. eauto.
Qed.

(** A literal without the character [c] that starts a text in which [c]
    follows [x] starts [x]. *)
Lemma startswith_before (p x : string) (c : ascii) (b : string) :
  ~ In c (list_ascii_of_string p) ->
  startswith p (x ++ String c b) = true -> startswith p x = true.
Proof.
  revert x. induction p as [|a p IH]; intros x Hc H; [apply startswith_nil|].
  unfold startswith in *. simpl in Hc.
  destruct x as [|y x]; simpl in *.
  - destruct (ascii_dec a c); [tauto|discriminate].
  - destruct (ascii_dec a y); [|discriminate]. apply IH; tauto.
Qed.

Lemma block_end_inside (a : ascii) (u body : string) :
  startswith "####" (String a u) = false ->
  block_end (String a u ++ String nl body) = false.
Proof.
  intros H. unfold block_end. apply orb_false_iff. split.
  - destruct (startswith "####" (String a u ++ String nl body)) eqn:E;
      [|reflexivity].
    apply startswith_before in E; [congruence|].
    simpl. intros [F|[F|[F|[F|[]]]]]; discriminate.
  - simpl. destruct u; reflexivity.
Qed.

(** The lazy group passes over a text that holds no [####] and is
    followed by a newline. *)
Lemma lazy_passes (task_id u body acc : string) :
  contains "####" u = false ->
  first_some (block_stop task_id acc) (star_lazy anychar (u ++ String nl body)) =
  first_some (block_stop task_id (acc ++ u)) (star_lazy anychar (String nl body)).
Proof.
  revert acc. induction u as [|a u IH]; intros acc H.
  - now rewrite app_nil_r.
  - cbn [contains] in H. apply orb_false_iff in H. destruct H as [H1 H2].
    change (String a u ++ String nl body) with (String a (u ++ String nl body)).
    cbn [star_lazy anychar first_some].
    unfold block_stop at 1. cbn [snd].
    change (String a (u ++ String nl body)) with (String a u ++ String nl body).
    rewrite (block_end_inside a u body H1).
    change (String a u ++ String nl body) with (String a (u ++ String nl body)).
    rewrite block_stop_consume, (IH _ H2), app_assoc. reflexivity.
Qed.

(** The lazy group ends somewhere: at the latest where the text ends. *)
Lemma lazy_stops (task_id tail acc : string) :
  exists g r,
    first_some (block_stop task_id acc) (star_lazy anychar tail) =
      Some ((task_id, acc ++ g), r) /\
    tail = g ++ r.
Proof.
  revert acc. induction tail as [|a tail IH]; intros acc.
  - exists "", "". split; reflexivity.
  - cbn [star_lazy anychar first_some]. unfold block_stop at 1. cbn [fst snd].
    destruct (block_end (String a tail)).
    + exists "", (String a tail). split; reflexivity.
    + rewrite block_stop_consume.
      destruct (IH (acc ++ String a "")) as (g & r & E & Et).
      exists (String a g), r. rewrite E, app_assoc, Et. split; reflexivity.
Qed.

(** The match of [task_pattern] at a heading: the group of the block opens
    with the rest of the heading line. *)
Lemma task_pattern_heading (digits : string) (c : ascii) (rest body : string) :
  digits <> "" -> all isdigit digits = true ->
  isspace c = false -> contains "####" (String c rest) = false ->
  exists g r,
    task_pattern
      ("#### TASK-" ++ digits ++ ": " ++ String c rest ++ NL ++ body) =
      Some ((digits, String c rest ++ g), r) /\
    NL ++ body = g ++ r.
Proof.
  intros Hne Hd Hc Hno.
  destruct (lazy_stops digits (String nl body) (String c rest))
    as (g & r & E & Et).
  exists g, r. split; [|exact Et].
  unfold task_pattern.
  change ("#### TASK-" ++ digits ++ ": " ++ String c rest ++ NL ++ body)
    with ("####" ++ " TASK-" ++ digits ++ ": " ++ String c rest ++ NL ++ body).
  rewrite lit_app. cbn [bind].
  change (" TASK-" ++ digits ++ ": " ++ String c rest ++ NL ++ body)
    with (String " " ("TASK-" ++ digits ++ ": " ++ String c rest ++ NL ++ body)).
  change (plus isspace
            (String " " ("TASK-" ++ digits ++ ": " ++ String c rest ++ NL ++ body)))
    with [(" ", "TASK-" ++ digits ++ ": " ++ String c rest ++ NL ++ body)].
  cbn [first_some]. rewrite lit_app. cbn [bind].
  change (": " ++ String c rest ++ NL ++ body)
    with (String ":" (" " ++ String c rest ++ NL ++ body)).
  destruct (plus_run isdigit digits ":" (" " ++ String c rest ++ NL ++ body)
              Hne Hd eq_refl) as [l El].
  rewrite El. erewrite first_some_head; [reflexivity|]. cbn beta iota.
  change (String ":" (" " ++ String c rest ++ NL ++ body))
    with (":" ++ " " ++ String c rest ++ NL ++ body).
  rewrite lit_app. cbn [bind].
  change (" " ++ String c rest ++ NL ++ body)
    with (String " " (String c (rest ++ String nl body))).
  cbn [plus star]. change (isspace " ") with true. rewrite Hc.
  cbn [consume map List.app fst snd first_some plus_lazy anychar].
  rewrite block_stop_consume.
  cbn [contains] in Hno. apply orb_false_iff in Hno. destruct Hno as [_ Hno].
  rewrite (lazy_passes digits rest body _ Hno).
  change (("" ++ String c "") ++ rest) with (String c rest).
  rewrite E. reflexivity.
Qed.

(** ** Stripping and splitting *)

Lemma rstrip_head (a : ascii) (s : string) :
  isspace a = false -> exists t, rstrip (String a s) = String a t.
Proof.
  intros H. simpl. destruct (rstrip s); [rewrite H|]; eauto.
Qed.

Lemma rstrip_app (a b : string) :
  rstrip (a ++ b) =
  match rstrip b with
  | "" => rstrip a
  | rb => a ++ rb
  end.
Proof.
  induction a as [|x a IH]; simpl.
  - destruct (rstrip b); reflexivity.
  - rewrite IH. destruct (rstrip b) as [|y rb]; [reflexivity|].
    destruct a; reflexivity.
Qed.

Lemma rstrip_idempotent (s : string) : rstrip (rstrip s) = rstrip s.
Proof.
  induction s as [|a s IH]; [reflexivity|]. simpl.
  destruct (rstrip s) as [|b r] eqn:E.
  - destruct (isspace a) eqn:Ea; [reflexivity|]. simpl. now rewrite Ea.
  - change (rstrip (String a (String b r)))
      with (match rstrip (String b r) with
            | "" => if isspace a then "" else String a ""
            | r' => String a r'
            end).
    rewrite IH. reflexivity.
Qed.

Lemma rstrip_all (c : ascii -> bool) (s : string) :
  all c s = true -> all c (rstrip s) = true.
Proof.
  induction s as [|a s IH]; [reflexivity|]. simpl. intros H.
  apply andb_true_iff in H. destruct H as [Ha Hs]. specialize (IH Hs).
  destruct (rstrip s) as [|b r].
  - destruct (isspace a); [reflexivity|]. simpl. now rewrite Ha.
  - cbn [all] in *. now rewrite Ha.
Qed.

Lemma split_char_cons (c a : ascii) (s : string) :
  Ascii.eqb a c = false ->
  item0 (split_char c (String a s)) = String a (item0 (split_char c s)).
Proof.
  intros H. simpl. rewrite H.
  destruct s as [|b s]; [reflexivity|].
  destruct (split_char c (String b s)) as [|x l] eqn:E; [|reflexivity].
  simpl in E. destruct (Ascii.eqb b c); [discriminate|].
  destruct (split_char c s); discriminate.
Qed.

Lemma first_line_before_newline (u v : string) :
  all notnl u = true -> item0 (split_char nl (u ++ String nl v)) = u.
Proof.
  induction u as [|a u IH]; intros H.
  - reflexivity.
  - simpl in H. apply andb_true_iff in H. destruct H as [Ha Hu].
    change (String a u ++ String nl v) with (String a (u ++ String nl v)).
    rewrite split_char_cons, (IH Hu); [reflexivity|].
    unfold notnl in Ha. now apply negb_true_iff in Ha.
Qed.

Lemma first_line_alone (u : string) :
  all notnl u = true -> item0 (split_char nl u) = u.
Proof.
  induction u as [|a u IH]; intros H.
  - reflexivity.
  - simpl in H. apply andb_true_iff in H. destruct H as [Ha Hu].
    rewrite split_char_cons, (IH Hu); [reflexivity|].
    unfold notnl in Ha. now apply negb_true_iff in Ha.
Qed.

(** The title of a block that opens with a line and goes on, if it goes
    on, with a newline. *)
Lemma title_of_block (task_id : string) (c : ascii) (rest g : string) :
  isspace c = false -> all notnl (String c rest) = true ->
  (g = "" \/ exists g', g = String nl g') ->
  title (parse_task task_id (String c rest ++ g)) = strip (String c rest).
Proof.
  intros Hc Hnl Hg. unfold parse_task. cbn [title].
  assert (Hs : strip (String c rest) = rstrip (String c rest)).
  { unfold strip. cbn [lstrip]. now rewrite Hc. }
  assert (Hl : forall x, strip (String c rest ++ x) = rstrip (String c rest ++ x)).
  { intros x. unfold strip.
    change (String c rest ++ x) with (String c (rest ++ x)).
    cbn [lstrip]. now rewrite Hc. }
  assert (Hfix : strip (rstrip (String c rest)) = rstrip (String c rest)).
  { destruct (rstrip_head c rest Hc) as [t Et].
    unfold strip. rewrite Et. cbn [lstrip]. rewrite Hc, <- Et.
    apply rstrip_idempotent. }
  rewrite Hl, rstrip_app, Hs.
  destruct (rstrip g) as [|y rg] eqn:Eg.
  - rewrite first_line_alone; [exact Hfix|]. now apply rstrip_all.
  - destruct Hg as [->|[g' ->]]; [discriminate|].
    simpl in Eg. destruct (rstrip g') as [|z rg'] eqn:Eg'; [discriminate|].
    injection Eg as <- <-.
    rewrite first_line_before_newline by exact Hnl. exact Hs.
Qed.

(** A plan that opens with a heading: its first task has the rest of the
    heading line for title. *)
Lemma plan_opening_with_heading
    (digits : string) (c : ascii) (rest body : string) :
  digits <> "" -> all isdigit digits = true ->
  isspace c = false -> all notnl (String c rest) = true ->
  contains "####" (String c rest) = false ->
  exists task others,
    parse_refactor_plan
      ("#### TASK-" ++ digits ++ ": " ++ String c rest ++ NL ++ body) =
      task :: others /\
    id task = "TASK-" ++ digits /\
    title task = strip (String c rest).
Proof.
  intros Hne Hd Hc Hnl Hno.
  destruct (task_pattern_heading digits c rest body Hne Hd Hc Hno)
    as (g & r & E & Et).
  unfold parse_refactor_plan, finditer.
  set (doc := "#### TASK-" ++ digits ++ ": " ++ String c rest ++ NL ++ body) in *.
  assert (Hdoc : exists a doc', doc = String a doc') by (subst doc; simpl; eauto).
  destruct Hdoc as (a & doc' & Hdoc).
  rewrite Hdoc in *. cbn [finditer_from]. rewrite E. cbn [map fst snd].
  eexists. eexists. split; [reflexivity|]. split; [reflexivity|].
  apply title_of_block; [exact Hc|exact Hnl|].
  destruct g as [|b g']; [now left|right].
  simpl in Et. injection Et as -> _. eauto.
Qed.

(** C4, as stated: the heading [#### TASK-001: Add tests] is followed by a
    blank line and the line [Cover the billing module first.], which is
    the first non-blank line after the heading line; the title is
    [Add tests]. *)
Lemma C4_counterexample :
  map title (parse_refactor_plan Samples.plan_one) = ["Add tests"] /\
  map (fun m => Claimed.title (fst m)) (finditer task_pattern Samples.plan_one) =
    ["Cover the billing module first."].
Proof. split; vm_compute; reflexivity. Qed.

(** ** The fuel of the repeated group

    The items of the block fields consume, so the fuel that [block_field]
    gives to [plus_group], above the length of the text, is never used up:
    any larger fuel gives the same match. *)

Lemma drop_shorter (n : nat) (s : string) :
  String.length (drop n s) <= String.length s.
Proof.
  revert s.
  induction n as [|n IH]; intros [|a s]; simpl;
    [lia|lia|lia|specialize (IH s); lia].
Qed.

Lemma star_shorter (c : ascii -> bool) (s : string) (p : string * string) :
  In p (star c s) -> String.length (snd p) <= String.length s.
Proof.
  revert p. induction s as [|a s IH]; intros p H; simpl in H.
  - destruct H as [<-|[]]. reflexivity.
  - destruct (c a).
    + apply in_app_or in H. destruct H as [H|[<-|[]]]; [|reflexivity].
      unfold consume in H. apply in_map_iff in H. destruct H as (q & <- & Hq).
      apply IH in Hq. simpl. lia.
    + destruct H as [<-|[]]. reflexivity.
Qed.

Lemma plus_shorter (c : ascii -> bool) (s : string) (p : string * string) :
  In p (plus c s) -> String.length (snd p) < String.length s.
Proof.
  destruct s as [|a s]; simpl; [tauto|].
  destruct (c a); [|simpl; tauto].
  unfold consume. intros H. apply in_map_iff in H. destruct H as (q & <- & Hq).
  apply star_shorter in Hq. simpl. lia.
Qed.

Lemma opt_shorter (e s : string) (p : string * string) :
  In p (opt e s) -> String.length (snd p) <= String.length s.
Proof.
  unfold opt, lit. destruct (startswith e s); simpl.
  - intros [<-|[<-|[]]]; simpl; [apply drop_shorter|reflexivity].
  - intros [<-|[]]. reflexivity.
Qed.

Lemma first_some_agree {A B : Type} (k k' : A -> option B) (l : list A) :
  (forall x, In x l -> k x = k' x) -> first_some k l = first_some k' l.
Proof.
  induction l as [|x l IH]; intros H; simpl; [reflexivity|].
  rewrite (H x (or_introl eq_refl)).
  destruct (k' x); [reflexivity|]. apply IH. intros y Hy. apply H. now right.
Qed.

Lemma list_item_consuming {B : Type} : consuming (@list_item B).
Proof.
  intros s k k' H. unfold list_item, bind, lit.
  destruct (startswith "- " s) eqn:E; [|reflexivity].
  assert (Hs : String.length (drop (String.length "- ") s) <= String.length s)
    by apply drop_shorter.
  apply first_some_agree. intros [text s2] H2. apply plus_shorter in H2.
  apply first_some_agree. intros [e s3] H3. apply opt_shorter in H3.
  apply H. simpl in *. lia.
Qed.

Lemma checkbox_item_consuming {B : Type} : consuming (@checkbox_item B).
Proof.
  intros s k k' H. unfold checkbox_item, bind, lit.
  destruct (startswith "- [" s) eqn:E; [|reflexivity].
  assert (Hs : String.length (drop (String.length "- [") s) <= String.length s)
    by apply drop_shorter.
  destruct (one notnl (drop (String.length "- [") s)) as [[mark s2]|] eqn:E1;
    [|reflexivity].
  assert (H2 : String.length s2 <= String.length (drop (String.length "- [") s)).
  { unfold one in E1. destruct (drop (String.length "- [") s) as [|a t];
      [discriminate|]. destruct (notnl a); [|discriminate].
    injection E1 as _ <-. simpl. lia. }
  destruct (startswith "] " s2) eqn:E2; [|reflexivity].
  pose proof (drop_shorter (String.length "] ") s2) as H3.
  apply first_some_agree. intros [text s4] H4. apply plus_shorter in H4.
  apply first_some_agree. intros [e s5] H5. apply opt_shorter in H5.
  apply H. simpl in *. lia.
Qed.

Lemma plus_group_fuel {B : Type}
    (item : string -> (string * string -> option B) -> option B) :
  consuming item ->
  forall fuel fuel' acc s k,
    String.length s < fuel -> String.length s < fuel' ->
    plus_group fuel item acc s k = plus_group fuel' item acc s k.
Proof.
  intros Hitem. induction fuel as [|fuel IH]; intros fuel' acc s k H H'; [lia|].
  destruct fuel' as [|fuel']; [lia|]. cbn [plus_group].
  apply Hitem. intros m r Hr. cbn beta iota.
  rewrite (IH fuel' (acc ++ m) r k) by lia. reflexivity.
Qed.

Lemma block_field_fuel (label : string) (s : string) (extra : nat) :
  block_field label list_item s =
  bind (lit label s) (fun s1 =>
  first_some (fun '(_, s2) =>
  bind (lit NL s2) (fun s3 =>
  plus_group (S (String.length s3) + extra) list_item "" s3 (fun m => Some m)))
  (star isspace s1)).
Proof.
  unfold block_field, bind. destruct (lit label s) as [s1|]; [|reflexivity].
  apply first_some_ext. intros [w s2]. destruct (lit NL s2) as [s3|]; [|reflexivity].
  apply plus_group_fuel; [apply list_item_consuming|lia|lia].
Qed.

(** * Further properties of the scripts *)

Import More.

(** ** Finding the files *)

Lemma filter_none {A : Type} (f : A -> bool) (l : list A) :
  (forall x, f x = false) -> filter f l = [].
Proof.
  intros H. induction l as [|x l IH]; simpl; [reflexivity|]. now rewrite H.
Qed.

Lemma drop_nil (n : nat) : drop n "" = "".
Proof. destruct n; reflexivity. Qed.

Lemma drop_drop (a b : nat) (s : string) : drop a (drop b s) = drop (a + b) s.
Proof.
  revert s. induction b as [|b IH]; intros s.
  - now rewrite Nat.add_0_r.
  - rewrite Nat.add_succ_r. destruct s as [|c s]; simpl.
    + apply drop_nil.
    + apply IH.
Qed.

Lemma endswith_drop (p s : string) :
  endswith p s = true ->
  String.length p <= String.length s /\
  drop (String.length s - String.length p) s = p.
Proof.
  unfold endswith. intros H. apply andb_true_iff in H. destruct H as [H1 H2].
  apply Nat.leb_le in H1. apply String.eqb_eq in H2. auto.
Qed.

(** Two suffixes of one name: the shorter is the end of the longer. *)
Lemma suffix_clash (p q s : string) :
  endswith p s = true -> endswith q s = true ->
  String.length p <= String.length q ->
  p = drop (String.length q - String.length p) q.
Proof.
  intros Hp Hq L.
  apply endswith_drop in Hp. apply endswith_drop in Hq.
  destruct Hp as [Lp Ep], Hq as [Lq Eq].
  rewrite <- Eq at 2. rewrite drop_drop, <- Ep at 1. f_equal. lia.
Qed.

Lemma rglob_suffix (t : Tree) (post : string) (f : Entry -> bool) (e : Entry) :
  In e (filter f (rglob t "" post)) -> endswith post (name e) = true.
Proof.
  intros H. apply filter_In in H. destruct H as [H _].
  unfold rglob in H. apply filter_In in H. destruct H as [_ H].
  unfold glob in H. apply andb_true_iff in H. apply H.
Qed.

Lemma rglob_nodup (t : Tree) (post : string) (f : Entry -> bool) :
  NoDup (entries t) -> NoDup (filter f (rglob t "" post)).
Proof. intros H. unfold rglob. now apply NoDup_filter, NoDup_filter. Qed.

Ltac suffixes_clash :=
  match goal with
  | H1 : endswith ?p ?s = true, H2 : endswith ?q ?s = true |- _ =>
      first
        [ assert (C : p = drop (String.length q - String.length p) q)
            by (apply (suffix_clash p q s H1 H2); simpl; lia);
          vm_compute in C; discriminate
        | assert (C : q = drop (String.length p - String.length q) p)
            by (apply (suffix_clash q p s H2 H1); simpl; lia);
          vm_compute in C; discriminate ]
  end.

(** X1. A path is skipped for any of its parts, those of the root
    directory included: when a part of the root's own path is hidden or
    named like a skipped directory, no Python file is found, and when it
    is hidden or [node_modules] no file at all: the analysis counts
    nothing. *)
Theorem X1_skipped_root_finds_nothing (t : Tree) :
  existsb python_skipped (root_parts t) = true ->
  find_python_files t = [] /\
  (existsb js_skipped (root_parts t) = true ->
   find_js_ts_files t = [] /\
   total_files (analyze_codebase t) = 0 /\
   total_lines (analyze_codebase t) = 0 /\
   todos (analyze_codebase t) = []).
Proof.
  intros Hpy.
  assert (Epy : find_python_files t = []).
  { unfold find_python_files. apply filter_none. intros e.
    unfold parts. rewrite existsb_app.
    change (existsb _ (root_parts t)) with (existsb python_skipped (root_parts t)).
    now rewrite Hpy. }
  split; [exact Epy|]. intros Hjs.
  assert (Ejs : find_js_ts_files t = []).
  { unfold find_js_ts_files. cbn [flat_map].
    rewrite !filter_none; [reflexivity| | | |]; intros e;
      unfold parts; rewrite existsb_app;
      change (existsb _ (root_parts t)) with (existsb js_skipped (root_parts t));
      now rewrite Hjs. }
  split; [exact Ejs|].
  unfold analyze_codebase, analyze_codebase_with. rewrite Epy, Ejs.
  repeat split.
Qed.

Lemma X1_witness :
  find_python_files below_hidden = [] /\
  find_js_ts_files below_hidden = [] /\
  total_files (analyze_codebase below_hidden) = 0.
Proof.
  destruct (X1_skipped_root_finds_nothing below_hidden eq_refl) as [Hpy Hjs].
  destruct (Hjs eq_refl) as (H1 & H2 & _).
  exact (conj Hpy (conj H1 H2)).
Defined.

(** X2. The five searches by extension never meet: a tree that holds no
    path twice gives lists of Python and of JavaScript and TypeScript
    files in which no file stands twice, so no file is counted twice. *)
Theorem X2_no_file_found_twice (t : Tree) :
  NoDup (entries t) ->
  NoDup (find_python_files t ++ find_js_ts_files t)%list.
Proof.
  intros H. unfold find_python_files, find_js_ts_files. cbn [flat_map].
  rewrite List.app_nil_r.
  repeat (apply NoDup_app; [now apply rglob_nodup| |]);
    try now apply rglob_nodup.
  all: intros e He Hin; apply rglob_suffix in He;
    repeat (apply in_app_or in Hin; destruct Hin as [Hin|Hin]);
    apply rglob_suffix in Hin; suffixes_clash.
Qed.

Lemma X2_witness :
  NoDup (find_python_files small_project ++ find_js_ts_files small_project)%list.
Proof.
  apply X2_no_file_found_twice.
  repeat (constructor; [simpl; intuition discriminate|]). constructor.
Defined.

(** ** The totals of the analysis *)

Section Totals.
Variable detect : option string -> list (string * nat).

Lemma python_totals (files : list Entry) (r : Results) :
  let r' := fold_left (python_step detect) files r in
  total_files r' = total_files r /\
  total_lines r' = total_lines r + list_sum (map count_lines files) /\
  languages r' = languages r /\
  todos r' = (todos r ++ flat_map find_todos files)%list.
Proof.
  revert r. induction files as [|f files IH]; intros r; cbn zeta.
  - simpl. now rewrite Nat.add_0_r, List.app_nil_r.
  - cbn [fold_left]. specialize (IH (python_step detect r f)). cbn zeta in IH.
    destruct IH as (E1 & E2 & E3 & E4). rewrite E1, E2, E3, E4.
    unfold python_step. cbv zeta.
    cbn [total_files total_lines languages todos map flat_map].
    change (list_sum (count_lines f :: map count_lines files))
      with (count_lines f + list_sum (map count_lines files)).
    split; [reflexivity|]. split; [lia|]. split; [reflexivity|].
    now rewrite <- List.app_assoc.
Qed.

Lemma js_totals (files : list Entry) (r : Results) :
  let r' := fold_left js_step files r in
  total_files r' = total_files r /\
  total_lines r' = total_lines r + list_sum (map count_lines files) /\
  languages r' = languages r /\
  todos r' = (todos r ++ flat_map find_todos files)%list.
Proof.
  revert r. induction files as [|f files IH]; intros r; cbn zeta.
  - simpl. now rewrite Nat.add_0_r, List.app_nil_r.
  - cbn [fold_left]. specialize (IH (js_step r f)). cbn zeta in IH.
    destruct IH as (E1 & E2 & E3 & E4). rewrite E1, E2, E3, E4.
    unfold js_step. cbv zeta.
    cbn [total_files total_lines languages todos map flat_map].
    change (list_sum (count_lines f :: map count_lines files))
      with (count_lines f + list_sum (map count_lines files)).
    split; [reflexivity|]. split; [lia|]. split; [reflexivity|].
    now rewrite <- List.app_assoc.
Qed.

Lemma enter_language_totals (label : string) (files : list Entry) (r : Results) :
  let r' := enter_language label files r in
  total_files r' = total_files r + List.length files /\
  total_lines r' = total_lines r /\
  list_sum (map snd (languages r')) =
    list_sum (map snd (languages r)) + List.length files /\
  todos r' = todos r.
Proof.
  destruct files as [|f files]; cbn zeta.
  - simpl. now rewrite !Nat.add_0_r.
  - cbn [enter_language total_files total_lines languages todos].
    rewrite map_app, list_sum_app. simpl.
    split; [reflexivity|]. split; [reflexivity|]. split; [lia|reflexivity].
Qed.

End Totals.

Lemma large_entry_short (e : Entry) : List.length (large_entry e) <= 1.
Proof. unfold large_entry. destruct (500 <? count_lines e); simpl; lia. Qed.

Lemma flat_map_large_short (l : list Entry) :
  List.length (flat_map large_entry l) <= List.length l.
Proof.
  induction l as [|e l IH]; simpl; [lia|].
  rewrite List.length_app. pose proof (large_entry_short e). lia.
Qed.

(** X3. In the result of an analysis the number of files is the sum of
    the counts of the languages, the Python files and the JavaScript and
    TypeScript files found; the number of lines is the sum of their line
    counts; the TODO findings are those of the files in the order they
    were met; and the large files are at most as many as the files, each
    of more than 500 lines. *)
Theorem X3_totals_of_analysis (t : Tree) :
  let r := analyze_codebase t in
  let files := (find_python_files t ++ find_js_ts_files t)%list in
  total_files r = List.length files /\
  list_sum (map snd (languages r)) = total_files r /\
  total_lines r = list_sum (map count_lines files) /\
  todos r = flat_map find_todos files /\
  List.length (large_files r) <= total_files r /\
  Forall (fun x => 500 < snd x) (large_files r).
Proof.
  cbn zeta.
  assert (Hl : large_files (analyze_codebase t) =
               flat_map large_entry (find_python_files t ++ find_js_ts_files t)%list)
    by apply analyze_large_files.
  rewrite Hl.
  unfold analyze_codebase, analyze_codebase_with.
  cbn [total_files total_lines languages todos].
  destruct (js_totals (find_js_ts_files t)
              (enter_language "JavaScript/TypeScript" (find_js_ts_files t)
                 (fold_left (python_step detect_complexity) (find_python_files t)
                    (enter_language "Python" (find_python_files t)
                       initial_results))))
    as (J1 & J2 & J3 & J4).
  destruct (enter_language_totals "JavaScript/TypeScript" (find_js_ts_files t)
              (fold_left (python_step detect_complexity) (find_python_files t)
                 (enter_language "Python" (find_python_files t) initial_results)))
    as (K1 & K2 & K3 & K4).
  destruct (python_totals detect_complexity (find_python_files t)
              (enter_language "Python" (find_python_files t) initial_results))
    as (P1 & P2 & P3 & P4).
  destruct (enter_language_totals "Python" (find_python_files t) initial_results)
    as (L1 & L2 & L3 & L4).
  cbn zeta in *.
  rewrite J1, J2, J3, J4, K1, K2, K3, K4, P1, P2, P3, P4, L1, L2, L3, L4.
  rewrite List.length_app, map_app, list_sum_app, flat_map_app.
  cbn [total_files total_lines languages todos initial_results map list_sum
       fold_right List.app].
  repeat split; try lia.
  - pose proof (flat_map_large_short (find_python_files t ++ find_js_ts_files t)%list)
      as H. rewrite List.length_app in H. lia.
  - apply Forall_forall. intros x Hx. apply in_flat_map in Hx.
    destruct Hx as (e & _ & Hx). unfold large_entry in Hx.
    destruct (500 <? count_lines e) eqn:E; [|destruct Hx].
    destruct Hx as [<-|[]]. simpl. now apply Nat.ltb_lt.
Qed.

(** ** The TODO findings *)

Lemma contains_cons (sub : string) (a : ascii) (s : string) :
  contains sub s = true -> contains sub (String a s) = true.
Proof. intros H. cbn [contains]. rewrite H. apply orb_true_r. Qed.

Lemma contains_startswith (sub s : string) :
  startswith sub s = true -> contains sub s = true.
Proof. intros H. destruct s; cbn [contains]; now rewrite H. Qed.

Lemma startswith_cons (a b : ascii) (p s : string) :
  startswith (String a p) (String b s) = true <-> a = b /\ startswith p s = true.
Proof.
  unfold startswith. simpl. destruct (ascii_dec a b); split; intros H;
    try tauto; discriminate.
Qed.

Lemma file_lines_cons (a : ascii) (s : string) :
  Ascii.eqb a nl = false ->
  exists l ls,
    file_lines (String a s) = String a l :: ls /\
    (file_lines s = l :: ls \/ (file_lines s = [] /\ l = "" /\ ls = [])).
Proof.
  intros H. simpl. rewrite H. destruct (file_lines s) as [|l ls] eqn:E.
  - exists "", []. auto.
  - exists l, ls. auto.
Qed.

(** A text without newline that starts the file starts its first line. *)
Lemma startswith_first_line (sub text : string) :
  sub <> "" -> all notnl sub = true -> startswith sub text = true ->
  exists l ls, file_lines text = l :: ls /\ startswith sub l = true.
Proof.
  revert sub. induction text as [|a text IH]; intros sub Hne Hnl H.
  - destruct sub; [congruence|discriminate].
  - destruct sub as [|b sub]; [congruence|].
    apply startswith_cons in H. destruct H as [<- H].
    cbn [all] in Hnl. apply andb_true_iff in Hnl. destruct Hnl as [Hb Hnl].
    unfold notnl in Hb. apply negb_true_iff in Hb.
    destruct (file_lines_cons b text Hb) as (l & ls & E & Hl).
    exists (String b l), ls. split; [exact E|].
    apply startswith_cons. split; [reflexivity|].
    destruct sub as [|c sub]; [apply startswith_nil|].
    destruct (IH (String c sub)) as (l' & ls' & E' & H'); [discriminate|exact Hnl|exact H|].
    destruct Hl as [Hl|(Hl & _)]; [|congruence].
    rewrite E' in Hl. injection Hl as <- _. exact H'.
Qed.

(** A text without newline that occurs in the file occurs in a line. *)
Lemma contains_in_line (sub text : string) :
  sub <> "" -> all notnl sub = true -> contains sub text = true ->
  exists line, In line (file_lines text) /\ contains sub line = true.
Proof.
  intros Hne Hnl. induction text as [|a text IH]; intros H.
  - cbn [contains] in H. rewrite orb_false_r in H.
    destruct sub; [congruence|discriminate].
  - cbn [contains] in H. apply orb_true_iff in H. destruct H as [H|H].
    + destruct (startswith_first_line sub (String a text) Hne Hnl H)
        as (l & ls & E & Hl).
      exists l. rewrite E. split; [now left|now apply contains_startswith].
    + destruct (IH H) as (line & Hin & Hc).
      simpl. destruct (Ascii.eqb a nl).
      * exists line. split; [now right|exact Hc].
      * destruct (file_lines text) as [|l ls]; [destruct Hin|].
        destruct Hin as [<-|Hin].
        -- exists (String a l). split; [now left|now apply contains_cons].
        -- exists line. split; [now right|exact Hc].
Qed.

Lemma contains_app_r (sub a b : string) :
  contains sub a = true -> contains sub (a ++ b) = true.
Proof.
  induction a as [|x a IH]; intros H.
  - cbn [contains] in H. rewrite orb_false_r in H.
    destruct sub; [|discriminate]. apply contains_startswith, startswith_nil.
  - cbn [contains] in H. apply orb_true_iff in H. destruct H as [H|H].
    + apply contains_startswith. now apply startswith_app.
    + change (String x a ++ b) with (String x (a ++ b)).
      apply contains_cons. now apply IH.
Qed.

Lemma contains_app_l (sub a b : string) :
  contains sub b = true -> contains sub (a ++ b) = true.
Proof.
  intros H. induction a as [|x a IH]; [exact H|].
  change (String x a ++ b) with (String x (a ++ b)). now apply contains_cons.
Qed.

Lemma concat_app (l1 l2 : list string) :
  String.concat "" (l1 ++ l2) = String.concat "" l1 ++ String.concat "" l2.
Proof.
  induction l1 as [|x l1 IH]; [reflexivity|].
  change ((x :: l1) ++ l2)%list with (x :: (l1 ++ l2))%list.
  now rewrite !concat_cons, IH, app_assoc.
Qed.

(** The lines of a file, one after the other, are its text. *)
Lemma file_lines_concat (text : string) :
  String.concat "" (file_lines text) = text.
Proof.
  induction text as [|a text IH]; [reflexivity|].
  simpl file_lines. destruct (Ascii.eqb a nl).
  - now rewrite concat_cons, IH.
  - destruct (file_lines text) as [|l ls].
    + simpl in IH. now rewrite <- IH.
    + rewrite concat_cons in *. simpl. now rewrite IH.
Qed.

(** What occurs in a line of the file occurs in the file. *)
Lemma contains_of_line (sub text line : string) :
  In line (file_lines text) -> contains sub line = true ->
  contains sub text = true.
Proof.
  intros Hin Hc. apply in_split in Hin. destruct Hin as (l1 & l2 & E).
  rewrite <- (file_lines_concat text), E, concat_app, concat_cons.
  apply contains_app_l, contains_app_r, Hc.
Qed.

Lemma marked_in_file (text : string) :
  (exists line, In line (file_lines text) /\ marked line = true) <->
  contains "TODO" text = true \/ contains "FIXME" text = true.
Proof.
  unfold marked. split.
  - intros (line & Hin & H). apply orb_true_iff in H. destruct H as [H|H].
    + left. now apply (contains_of_line _ _ line).
    + right. now apply (contains_of_line _ _ line).
  - intros [H|H].
    + destruct (contains_in_line "TODO" text) as (line & Hin & Hc);
        [discriminate|reflexivity|exact H|].
      exists line. now rewrite Hc.
    + destruct (contains_in_line "FIXME" text) as (line & Hin & Hc);
        [discriminate|reflexivity|exact H|].
      exists line. rewrite Hc. now rewrite orb_true_r.
Qed.

Lemma in_enumerate_from {A : Type} (k : nat) (l : list A) (n : nat) (x : A) :
  In (n, x) (enumerate_from k l) <->
  exists i, nth_error l i = Some x /\ n = k + i.
Proof.
  revert k. induction l as [|y l IH]; intros k; simpl.
  - split; [tauto|]. intros (i & H & _). destruct i; discriminate.
  - rewrite IH. split.
    + intros [[= <- <-]|(i & H & ->)].
      * exists 0. split; [reflexivity|lia].
      * exists (S i). split; [exact H|lia].
    + intros ([|i] & H & ->).
      * left. simpl in H. injection H as <-. f_equal. lia.
      * right. exists i. split; [exact H|lia].
Qed.

Lemma todos_in_lines (e : Entry) (text x : string) :
  In x (todos_in e text) <->
  exists i line,
    nth_error (file_lines text) i = Some line /\ marked line = true /\
    x = finding e (S i) line.
Proof.
  unfold todos_in. rewrite in_flat_map. split.
  - intros ([n line] & Hin & Hx).
    apply in_enumerate_from in Hin. destruct Hin as (i & Hi & ->).
    fold (marked line) in Hx. destruct (marked line) eqn:Em; [|destruct Hx].
    destruct Hx as [<-|[]]. exists i, line. auto.
  - intros (i & line & Hi & Hm & ->).
    exists (S i, line). split.
    + apply in_enumerate_from. exists i. auto.
    + fold (marked line). rewrite Hm. now left.
Qed.

Lemma find_todos_in (e : Entry) (text x : string) :
  content e = Some text ->
  (In x (find_todos e) <->
   exists i line,
     nth_error (file_lines text) i = Some line /\ marked line = true /\
     x = finding e (S i) line).
Proof.
  intros Hc. unfold find_todos. rewrite Hc. apply todos_in_lines.
Qed.

Lemma todos_in_none (e : Entry) (text : string) :
  todos_in e text = [] <->
  contains "TODO" text = false /\ contains "FIXME" text = false.
Proof.
  split.
  - intros H.
    destruct (contains "TODO" text) eqn:E1; destruct (contains "FIXME" text) eqn:E2;
      try tauto;
      exfalso;
      [ destruct (proj2 (marked_in_file text) (or_introl E1)) as (line & Hin & Hm)
      | destruct (proj2 (marked_in_file text) (or_introl E1)) as (line & Hin & Hm)
      | destruct (proj2 (marked_in_file text) (or_intror E2)) as (line & Hin & Hm) ];
      apply In_nth_error in Hin; destruct Hin as [i Hi];
      assert (Hx : In (finding e (S i) line) (todos_in e text))
        by (apply todos_in_lines; eauto);
      rewrite H in Hx; destruct Hx.
  - intros [E1 E2].
    destruct (todos_in e text) as [|x l] eqn:E; [reflexivity|exfalso].
    assert (Hx : In x (todos_in e text)) by (rewrite E; now left).
    apply todos_in_lines in Hx.
    destruct Hx as (i & line & Hi & Hm & _).
    apply nth_error_In in Hi.
    destruct (proj1 (marked_in_file text) (ex_intro _ line (conj Hi Hm)));
      congruence.
Qed.

(** X4. A file has no TODO finding exactly when neither [TODO] nor
    [FIXME] occurs, in capitals, in the text that the loop reads: the
    markers hold no newline, so one that occurs in the text occurs in a
    line. For a file that is read to its end that text is its content;
    for a file whose decoding fails midway it is the lines read before
    the failure, whose findings are kept, while the file counts 0 lines
    and has no complex function. *)
Theorem X4_no_finding_iff_no_marker (e : Entry) :
  match content e with
  | Some text =>
      find_todos e = [] <->
      contains "TODO" text = false /\ contains "FIXME" text = false
  | None =>
      (find_todos e = [] <->
       contains "TODO" (read_before_error e) = false /\
       contains "FIXME" (read_before_error e) = false) /\
      count_lines e = 0 /\
      detect_complexity (content e) = []
  end.
Proof.
  unfold find_todos, count_lines.
  destruct (content e) as [text|] eqn:Hc.
  - apply todos_in_none.
  - split; [apply todos_in_none|]. split; reflexivity.
Qed.

Example lower_case_todo_is_no_marker :
  find_todos (Samples.file ["static"; "site.js"] ("// todo later" ++ NL)) = [] /\
  find_todos (Samples.file ["README.md"] ("TODO list" ++ NL)) =
    ["README.md:1: TODO list"].
Proof. split; vm_compute; reflexivity. Qed.

Example findings_before_a_decoding_error :
  find_todos broken_midway = ["notes.py:1: # TODO a"] /\
  count_lines broken_midway = 0.
Proof. split; vm_compute; reflexivity. Qed.

(** X5. The findings of a file are its marked lines, one finding for a
    line: the name of the file, the number of the line counted from 1 and
    the line stripped. There are no more findings than lines. *)
Theorem X5_findings_are_the_marked_lines (e : Entry) (text : string) :
  content e = Some text ->
  (forall x,
     In x (find_todos e) <->
     exists i line,
       nth_error (file_lines text) i = Some line /\ marked line = true /\
       x = name e ++ ":" ++ str (S i) ++ ": " ++ strip line) /\
  List.length (find_todos e) <= count_lines e.
Proof.
  intros Hc. split; [intros x; apply (find_todos_in e text x Hc)|].
  unfold find_todos, count_lines. rewrite Hc. unfold todos_in.
  generalize 1 as k. induction (file_lines text) as [|line l IH]; intros k.
  - simpl. lia.
  - cbn [enumerate_from flat_map]. rewrite List.length_app.
    specialize (IH (S k)).
    destruct (contains "TODO" line || contains "FIXME" line); simpl in *; lia.
Qed.

Lemma X5_witness :
  In "app.py:3: x = 1  # FIXME"
     (find_todos
        (Samples.file ["app.py"]
           ("import os" ++ NL ++ "# TODO: split" ++ NL ++ "x = 1  # FIXME" ++ NL))).
Proof.
  apply (X5_findings_are_the_marked_lines
           (Samples.file ["app.py"]
              ("import os" ++ NL ++ "# TODO: split" ++ NL ++ "x = 1  # FIXME" ++ NL))
           _ eq_refl).
  exists 2, ("x = 1  # FIXME" ++ NL). repeat split.
Defined.

(** ** The complex functions of an analysis *)

Lemma detect_complexity_text_nil (text : string) : detect_complexity_text text = [].
Proof.
  unfold detect_complexity_text, finditer.
  pose proof (finditer_from_starts func_pattern
                (fun s => startswith "def" s = true)
                func_pattern_starts text 0) as H.
  induction H as [|[from_start func_name] l Hx _ IH]; [reflexivity|].
  simpl in *. rewrite (complexity_zero _ Hx). exact IH.
Qed.

Lemma flat_map_nil {A B : Type} (f : A -> list B) (l : list A) :
  (forall x, f x = []) -> flat_map f l = [].
Proof.
  intros H. induction l as [|x l IH]; simpl; [reflexivity|]. now rewrite H, IH.
Qed.

Lemma lines_cons (x : string) (l : list string) :
  lines (x :: l) = x ++ NL ++ lines l.
Proof. unfold lines. cbn [map]. now rewrite concat_cons, app_assoc. Qed.

(** X6. No analysis reports a complex function: the window of the
    heuristic is empty for every function of every file. The report of an
    analysis therefore has no section of complex functions, counts 0 of
    them in its summary and says that none was detected. *)
Theorem X6_analysis_reports_no_complex_function (t : Tree) (w : World) :
  let r := analyze_codebase t in
  complex_functions r = [] /\
  complex_functions_section r = "" /\
  complexity_state r =
    "- ✅ No obviously complex functions detected (basic heuristic)" ++ NL /\
  contains ("- **Complex Functions (complexity >10)**: 0" ++ NL)
    (generate_assessment_report w r) = true.
Proof.
  cbn zeta.
  assert (E : complex_functions (analyze_codebase t) = []).
  { unfold analyze_codebase. rewrite analyze_complex_functions.
    apply flat_map_nil. intros e. unfold complex_entries, detect_complexity.
    destruct (content e); [now rewrite detect_complexity_text_nil|reflexivity]. }
  split; [exact E|].
  split; [unfold complex_functions_section; now rewrite E|].
  split; [unfold complexity_state; now rewrite E|].
  unfold generate_assessment_report. rewrite concat_cons.
  apply contains_app_r. unfold summary. rewrite E.
  rewrite !lines_cons.
  do 24 apply contains_app_l.
  apply contains_startswith.
  change (str (List.length (@nil (string * string * nat)))) with "0".
  change ("- **Complex Functions (complexity >10)**: " ++ "0")
    with "- **Complex Functions (complexity >10)**: 0".
  rewrite <- app_assoc. apply startswith_self.
Qed.

(** ** The entries that are listed *)

Lemma sorted_split {A : Type} (R : A -> A -> Prop) (l : list A) :
  StronglySorted R l ->
  forall n x y, In x (firstn n l) -> In y (skipn n l) -> R x y.
Proof.
  induction 1 as [|a l Hs IH Ha]; intros n x y Hx Hy.
  - destruct n; destruct Hx.
  - destruct n as [|n]; [destruct Hx|].
    cbn [firstn skipn] in Hx, Hy. destruct Hx as [<-|Hx].
    + rewrite Forall_forall in Ha. apply Ha.
      rewrite <- (firstn_skipn n l). apply in_or_app. now right.
    + now apply (IH n).
Qed.

(** X7. The entries that a list section shows are those of the highest
    metric: no large file that is left out has more lines than one that
    is shown, no complex function left out a higher score, and the
    entries shown and left out together are the entries of the report. *)
Theorem X7_listed_entries_are_the_highest (results : Results) :
  (forall x y,
     In x (large_files_shown results) ->
     In y (skipn 10 (sorted_desc snd (large_files results))) ->
     snd y <= snd x) /\
  Permutation (large_files results)
    (large_files_shown results ++
     skipn 10 (sorted_desc snd (large_files results)))%list /\
  (forall x y,
     In x (complex_functions_shown results) ->
     In y (skipn 10 (sorted_desc snd (complex_functions results))) ->
     snd y <= snd x) /\
  Permutation (complex_functions results)
    (complex_functions_shown results ++
     skipn 10 (sorted_desc snd (complex_functions results)))%list.
Proof.
  unfold large_files_shown, complex_functions_shown.
  rewrite !firstn_skipn.
  split; [|split; [apply sorted_desc_perm|split; [|apply sorted_desc_perm]]].
  - intros x y Hx Hy.
    apply (sorted_split (desc snd) _ (sorted_desc_sorted snd _) 10 x y Hx Hy).
  - intros x y Hx Hy.
    apply (sorted_split (desc snd) _ (sorted_desc_sorted snd _) 10 x y Hx Hy).
Qed.

Lemma X7_witness :
  snd ("m1.py", 501) <= snd ("m2.py", 502).
Proof.
  apply (proj1 (X7_listed_entries_are_the_highest
                  (Samples.report_with Samples.eleven_large []))).
  - vm_compute. do 9 right. left. reflexivity.
  - vm_compute. left. reflexivity.
Defined.

(** ** The framework *)

(** X8. An analysis names one of five frameworks, and the report has a
    block of entry points for Django, Flask and React only: for Express,
    as for an unknown framework, the section of entry points stays
    empty. *)
Theorem X8_framework_and_entry_points (t : Tree) :
  let r := analyze_codebase t in
  In (framework r) ["Django"; "Flask"; "React"; "Express"; "Unknown"] /\
  (entry_points r = "" <-> framework r = "Express" \/ framework r = "Unknown").
Proof.
  cbn zeta.
  assert (E : framework (analyze_codebase t) = detect_framework t) by reflexivity.
  rewrite E. unfold entry_points. rewrite E. unfold detect_framework.
  destruct (exists_in_root t "manage.py").
  { split; [simpl; tauto|]. split; [vm_compute; discriminate|].
    intros [H|H]; discriminate. }
  destruct (exists_in_root t "app.py" || exists_in_root t "wsgi.py").
  { split; [simpl; tauto|]. split; [vm_compute; discriminate|].
    intros [H|H]; discriminate. }
  destruct (exists_in_root t "package.json");
    [|split; [simpl; tauto|split; [tauto|reflexivity]]].
  destruct (package_deps t) as [deps|];
    [|split; [simpl; tauto|split; [tauto|reflexivity]]].
  destruct (mem "react" deps).
  { split; [simpl; tauto|]. split; [vm_compute; discriminate|].
    intros [H|H]; discriminate. }
  destruct (mem "express" deps);
    split; try (simpl; tauto); split; try tauto; reflexivity.
Qed.

(** ** The lines of the list sections *)

Lemma all_app (c : ascii -> bool) (a b : string) :
  all c (a ++ b) = all c a && all c b.
Proof.
  induction a as [|x a IH]; [reflexivity|].
  simpl. now rewrite IH, andb_assoc.
Qed.

Lemma one_line_uint (d : Decimal.uint) :
  all notnl (NilEmpty.string_of_uint d) = true.
Proof. induction d; simpl; auto. Qed.

Lemma one_line_str (n : nat) : all notnl (str n) = true.
Proof. apply one_line_uint. Qed.

Lemma one_line_group3 (s : string) :
  all notnl s = true -> all notnl (group3 s) = true.
Proof.
  induction s as [|a s IH]; [reflexivity|].
  cbn [all group3]. intros H. apply andb_true_iff in H. destruct H as [Ha Hs].
  rewrite Ha. cbn [andb].
  destruct ((0 <? String.length s) && (String.length s mod 3 =? 0));
    [|now apply IH].
  change ("," ++ group3 s) with (String "," (group3 s)).
  cbn [all]. rewrite (IH Hs). reflexivity.
Qed.

Lemma split_char_line (u v : string) :
  all notnl u = true ->
  split_char nl (u ++ NL ++ v) = u :: split_char nl v.
Proof.
  induction u as [|a u IH]; intros H.
  - reflexivity.
  - simpl in H. apply andb_true_iff in H. destruct H as [Ha Hu].
    unfold notnl in Ha. apply negb_true_iff in Ha.
    change (String a u ++ NL ++ v) with (String a (u ++ NL ++ v)).
    cbn [split_char]. rewrite Ha, (IH Hu). reflexivity.
Qed.

Lemma split_char_blank (v : string) :
  split_char nl (NL ++ v) = "" :: split_char nl v.
Proof. reflexivity. Qed.

Lemma split_char_line3 (a b c v : string) :
  all notnl (a ++ b ++ c) = true ->
  split_char nl (a ++ b ++ c ++ NL ++ v) = (a ++ b ++ c) :: split_char nl v.
Proof.
  intros H. rewrite <- (split_char_line _ _ H). now rewrite !app_assoc.
Qed.

Lemma split_char_lines (l : list string) (v : string) :
  Forall (fun x => all notnl x = true) l ->
  split_char nl (lines l ++ v) = (l ++ split_char nl v)%list.
Proof.
  induction 1 as [|x l Hx _ IH]; [reflexivity|].
  rewrite lines_cons, !app_assoc, (split_char_line _ _ Hx), IH. reflexivity.
Qed.

Lemma concat_items {A : Type} (line : A -> string) (l : list A) :
  String.concat "" (map (fun x => line x ++ NL) l) = lines (map line l).
Proof. unfold lines. now rewrite map_map. Qed.

Lemma large_file_item_line (x : string * nat) :
  large_file_item x = large_file_line x ++ NL.
Proof.
  unfold large_file_item, large_file_line. now rewrite !app_assoc.
Qed.

Lemma complex_function_item_line (x : string * string * nat) :
  complex_function_item x = complex_function_line x ++ NL.
Proof.
  unfold complex_function_item, complex_function_line. now rewrite !app_assoc.
Qed.

Lemma large_file_line_one (x : string * nat) :
  one_line (fst x) = true -> all notnl (large_file_line x) = true.
Proof.
  unfold one_line, large_file_line, str_commas. intros H.
  rewrite !all_app, H, (one_line_group3 _ (one_line_str _)). reflexivity.
Qed.

Lemma complex_function_line_one (x : string * string * nat) :
  one_line (fst (fst x)) = true -> one_line (snd (fst x)) = true ->
  all notnl (complex_function_line x) = true.
Proof.
  unfold one_line, complex_function_line. intros H1 H2.
  rewrite !all_app, H1, H2, one_line_str. reflexivity.
Qed.

Lemma Forall_firstn {A : Type} (P : A -> Prop) (n : nat) (l : list A) :
  Forall P l -> Forall P (firstn n l).
Proof.
  intros H. revert n. induction H as [|x l Hx _ IH]; intros [|n]; simpl; auto.
Qed.

Lemma in_firstn {A : Type} (n : nat) (l : list A) (x : A) :
  In x (firstn n l) -> In x l.
Proof.
  revert l. induction n as [|n IH]; intros [|y l] H; simpl in H; try tauto.
  destruct H as [->|H]; [now left|right; now apply IH].
Qed.

Lemma Forall_perm {A : Type} (P : A -> Prop) (l l' : list A) :
  Permutation l l' -> Forall P l -> Forall P l'.
Proof.
  intros Hp H. rewrite Forall_forall in *. intros x Hx.
  apply H. eapply Permutation_in; [apply Permutation_sym; exact Hp|exact Hx].
Qed.

Lemma large_files_lines (results : Results) :
  large_files results <> [] ->
  Forall (fun x => one_line (fst x) = true) (large_files results) ->
  split_char nl (large_files_section results) =
    "**Large Files (>500 lines):**" :: "" ::
    (map large_file_line (large_files_shown results) ++ [""; ""])%list.
Proof.
  intros Hne Hone. unfold large_files_section.
  destruct (large_files results) as [|e rest] eqn:E; [congruence|].
  rewrite <- E in *.
  rewrite (split_char_line "**Large Files (>500 lines):**") by reflexivity.
  rewrite split_char_blank.
  rewrite (map_ext _ _ large_file_item_line), concat_items.
  rewrite split_char_lines; [reflexivity|].
  apply Forall_forall. intros line Hin. apply in_map_iff in Hin.
  destruct Hin as (x & <- & Hx). apply large_file_line_one.
  unfold large_files_shown in Hx. apply in_firstn in Hx.
  rewrite Forall_forall in Hone. apply Hone.
  eapply Permutation_in; [apply Permutation_sym, sorted_desc_perm|exact Hx].
Qed.

Lemma complex_functions_lines (results : Results) :
  complex_functions results <> [] ->
  Forall (fun x => one_line (fst (fst x)) = true /\ one_line (snd (fst x)) = true)
    (complex_functions results) ->
  split_char nl (complex_functions_section results) =
    "**Complex Functions (>10 decision points):**" :: "" ::
    (map complex_function_line (complex_functions_shown results) ++ [""; ""])%list.
Proof.
  intros Hne Hone. unfold complex_functions_section.
  destruct (complex_functions results) as [|e rest] eqn:E; [congruence|].
  rewrite <- E in *.
  rewrite (split_char_line "**Complex Functions (>10 decision points):**")
    by reflexivity.
  rewrite split_char_blank.
  rewrite (map_ext _ _ complex_function_item_line), concat_items.
  rewrite split_char_lines; [reflexivity|].
  apply Forall_forall. intros line Hin. apply in_map_iff in Hin.
  destruct Hin as (x & <- & Hx).
  unfold complex_functions_shown in Hx. apply in_firstn in Hx.
  rewrite Forall_forall in Hone.
  destruct (Hone x) as [H1 H2];
    [eapply Permutation_in; [apply Permutation_sym, sorted_desc_perm|exact Hx]|].
  now apply complex_function_line_one.
Qed.

Lemma todos_lines (results : Results) :
  todos results <> [] ->
  Forall (fun todo => one_line todo = true) (todos results) ->
  split_char nl (todos_section results) =
    ("**TODO/FIXME Comments: " ++ str (List.length (todos results)) ++ "**") ::
    "" ::
    List.app (map todo_line (todos_shown results))
      (List.app
         (if List.length (todos results) <=? 20 then []
          else [""; "... and " ++ str (List.length (todos results) - 10) ++
                    " more"])
         [""; "**Action**: Convert TODOs to GitHub Issues"; ""; ""]).
Proof.
  intros Hne Hone. unfold todos_section.
  destruct (todos results) as [|e rest] eqn:E; [congruence|].
  rewrite <- E in *.
  rewrite split_char_line3; [|rewrite !all_app, one_line_str; reflexivity].
  rewrite split_char_blank.
  change (map todo_item (todos_shown results))
    with (map (fun x => todo_line x ++ NL) (todos_shown results)).
  rewrite concat_items, split_char_lines.
  2:{ apply Forall_forall. intros line Hin. apply in_map_iff in Hin.
      destruct Hin as (x & <- & Hx). unfold todo_line. rewrite all_app.
      rewrite Forall_forall in Hone.
      change (all notnl x) with (one_line x). rewrite (Hone x); [reflexivity|].
      unfold todos_shown in Hx.
      destruct (List.length (todos results) <=? 20); now apply in_firstn in Hx. }
  do 3 f_equal. unfold todos_more.
  destruct (List.length (todos results) <=? 20).
  - reflexivity.
  - rewrite !app_assoc, split_char_blank.
    rewrite split_char_line3; [reflexivity|].
    rewrite !all_app, one_line_str. reflexivity.
Qed.

Lemma contains_line_of_lines (x : string) (l : list string) :
  In x l -> contains (x ++ NL) (lines l) = true.
Proof.
  induction l as [|y l IH]; intros H; [destruct H|].
  rewrite lines_cons. destruct H as [->|H].
  - rewrite <- app_assoc. apply contains_startswith, startswith_self.
  - do 2 apply contains_app_l. now apply IH.
Qed.

Lemma report_has_large_files_section (w : World) (results : Results) :
  contains (large_files_section results)
    (generate_assessment_report w results) = true.
Proof.
  unfold generate_assessment_report.
  do 5 (rewrite concat_cons; apply contains_app_l).
  rewrite concat_cons. apply contains_startswith, startswith_self.
Qed.

Lemma report_has_complex_functions_section (w : World) (results : Results) :
  contains (complex_functions_section results)
    (generate_assessment_report w results) = true.
Proof.
  unfold generate_assessment_report.
  do 6 (rewrite concat_cons; apply contains_app_l).
  rewrite concat_cons. apply contains_startswith, startswith_self.
Qed.

Lemma report_has_todos_section (w : World) (results : Results) :
  contains (todos_section results)
    (generate_assessment_report w results) = true.
Proof.
  unfold generate_assessment_report.
  do 14 (rewrite concat_cons; apply contains_app_l).
  rewrite concat_cons. apply contains_startswith, startswith_self.
Qed.

Lemma report_has_summary_line (w : World) (results : Results) (x : string) :
  contains (x ++ NL) (summary w results) = true ->
  contains (x ++ NL) (generate_assessment_report w results) = true.
Proof.
  intros H. unfold generate_assessment_report. rewrite concat_cons.
  now apply contains_app_r.
Qed.

(** C3. In every report, the sections of large files and of complex
    functions are part of the text and, for entries that hold no newline,
    their lines are the fixed header, which bears no count, a blank line,
    one line for each of the ten entries of the highest metric (for all
    when there are fewer), and the blank lines that close the section: no
    line tells of the entries left out. The full counts of the three
    lists stand in the Executive Summary. The header of the TODO section
    bears the full count; the section lists every comment when there are
    at most twenty, and otherwise the first ten, followed by the line
    [... and N more] with N the count less ten. *)
Theorem C3_list_sections_show (w : World) (results : Results) :
  (contains (large_files_section results)
     (generate_assessment_report w results) = true /\
   contains (complex_functions_section results)
     (generate_assessment_report w results) = true /\
   contains (todos_section results)
     (generate_assessment_report w results) = true) /\
  (contains
     ("- **Large Files (>500 lines)**: " ++
      str (List.length (large_files results)) ++ NL)
     (generate_assessment_report w results) = true /\
   contains
     ("- **Complex Functions (complexity >10)**: " ++
      str (List.length (complex_functions results)) ++ NL)
     (generate_assessment_report w results) = true /\
   contains
     ("- **TODO/FIXME Comments**: " ++
      str (List.length (todos results)) ++ NL)
     (generate_assessment_report w results) = true) /\
  ((large_files results = [] -> large_files_section results = "") /\
   (large_files results <> [] ->
    Forall (fun x => one_line (fst x) = true) (large_files results) ->
    split_char nl (large_files_section results) =
      "**Large Files (>500 lines):**" :: "" ::
      (map large_file_line (large_files_shown results) ++ [""; ""])%list) /\
   (Forall (fun x => one_line (fst x) = true) (large_files results) ->
    forall line,
      In line (split_char nl (large_files_section results)) ->
      startswith "... and" line = false) /\
   List.length (large_files_shown results) =
     Nat.min 10 (List.length (large_files results)) /\
   (forall x y,
      In x (large_files_shown results) ->
      In y (skipn 10 (sorted_desc snd (large_files results))) ->
      snd y <= snd x) /\
   Permutation (large_files results)
     (large_files_shown results ++
      skipn 10 (sorted_desc snd (large_files results)))%list) /\
  ((complex_functions results = [] -> complex_functions_section results = "") /\
   (complex_functions results <> [] ->
    Forall
      (fun x => one_line (fst (fst x)) = true /\ one_line (snd (fst x)) = true)
      (complex_functions results) ->
    split_char nl (complex_functions_section results) =
      "**Complex Functions (>10 decision points):**" :: "" ::
      (map complex_function_line (complex_functions_shown results) ++
       [""; ""])%list) /\
   (Forall
      (fun x => one_line (fst (fst x)) = true /\ one_line (snd (fst x)) = true)
      (complex_functions results) ->
    forall line,
      In line (split_char nl (complex_functions_section results)) ->
      startswith "... and" line = false) /\
   List.length (complex_functions_shown results) =
     Nat.min 10 (List.length (complex_functions results)) /\
   (forall x y,
      In x (complex_functions_shown results) ->
      In y (skipn 10 (sorted_desc snd (complex_functions results))) ->
      snd y <= snd x) /\
   Permutation (complex_functions results)
     (complex_functions_shown results ++
      skipn 10 (sorted_desc snd (complex_functions results)))%list) /\
  ((todos results = [] ->
    todos_section results =
      "- ✅ No TODO/FIXME comments found" ++ NL ++ NL) /\
   (todos results <> [] ->
    Forall (fun todo => one_line todo = true) (todos results) ->
    split_char nl (todos_section results) =
      ("**TODO/FIXME Comments: " ++ str (List.length (todos results)) ++ "**") ::
      "" ::
      List.app (map todo_line (todos_shown results))
        (List.app
           (if List.length (todos results) <=? 20 then []
            else [""; "... and " ++ str (List.length (todos results) - 10) ++
                      " more"])
           [""; "**Action**: Convert TODOs to GitHub Issues"; ""; ""])) /\
   todos_shown results =
     (if List.length (todos results) <=? 20 then todos results
      else firstn 10 (todos results))).
Proof.
  split.
  { split; [apply report_has_large_files_section|].
    split; [apply report_has_complex_functions_section|].
    apply report_has_todos_section. }
  split.
  { split; [|split]; rewrite <- app_assoc; apply report_has_summary_line;
      unfold summary; apply contains_line_of_lines; cbn [In].
    - do 11 right. left. reflexivity.
    - do 12 right. left. reflexivity.
    - do 13 right. left. reflexivity. }
  split.
  { split; [intros E; unfold large_files_section; now rewrite E|].
    split; [apply large_files_lines|].
    split.
    { intros Hone line Hin.
      destruct (large_files results) as [|e rest] eqn:E.
      - unfold large_files_section in Hin. rewrite E in Hin.
        destruct Hin as [<-|[]]. reflexivity.
      - rewrite <- E in Hone. rewrite large_files_lines in Hin;
          [|rewrite E; discriminate|exact Hone].
        destruct Hin as [<-|[<-|Hin]]; [reflexivity|reflexivity|].
        apply in_app_or in Hin. destruct Hin as [Hin|[<-|[<-|[]]]];
          [|reflexivity|reflexivity].
        apply in_map_iff in Hin. destruct Hin as (x & <- & _). reflexivity. }
    split; [unfold large_files_shown; now rewrite firstn_min, sorted_desc_length|].
    split.
    - intros x y Hx Hy.
      apply (sorted_split (desc snd) _ (sorted_desc_sorted snd _) 10 x y Hx Hy).
    - unfold large_files_shown. rewrite firstn_skipn. apply sorted_desc_perm. }
  split.
  { split; [intros E; unfold complex_functions_section; now rewrite E|].
    split; [apply complex_functions_lines|].
    split.
    { intros Hone line Hin.
      destruct (complex_functions results) as [|e rest] eqn:E.
      - unfold complex_functions_section in Hin. rewrite E in Hin.
        destruct Hin as [<-|[]]. reflexivity.
      - rewrite <- E in Hone. rewrite complex_functions_lines in Hin;
          [|rewrite E; discriminate|exact Hone].
        destruct Hin as [<-|[<-|Hin]]; [reflexivity|reflexivity|].
        apply in_app_or in Hin. destruct Hin as [Hin|[<-|[<-|[]]]];
          [|reflexivity|reflexivity].
        apply in_map_iff in Hin. destruct Hin as (x & <- & _). reflexivity. }
    split; [unfold complex_functions_shown;
            now rewrite firstn_min, sorted_desc_length|].
    split.
    - intros x y Hx Hy.
      apply (sorted_split (desc snd) _ (sorted_desc_sorted snd _) 10 x y Hx Hy).
    - unfold complex_functions_shown. rewrite firstn_skipn.
      apply sorted_desc_perm. }
  split; [intros E; unfold todos_section; now rewrite E|].
  split; [apply todos_lines|].
  unfold todos_shown.
  destruct (List.length (todos results) <=? 20) eqn:E; [|reflexivity].
  apply Nat.leb_le in E. apply firstn_all2. exact E.
Qed.

Lemma C3_witness :
  split_char nl (large_files_section crowded) =
    "**Large Files (>500 lines):**" :: "" ::
    (map large_file_line (large_files_shown crowded) ++ [""; ""])%list /\
  startswith "... and"
    "- ❌ `m11.py` (511 lines) - Consider splitting" = false /\
  split_char nl (complex_functions_section crowded) =
    "**Complex Functions (>10 decision points):**" :: "" ::
    (map complex_function_line (complex_functions_shown crowded) ++
     [""; ""])%list /\
  startswith "... and"
    "- ⚠️  `m12.py::run` (complexity: 22) - REFACTOR" = false /\
  snd ("m1.py", 501) <= snd ("m2.py", 502) /\
  snd ("m1.py", "run", 11) <= snd ("m3.py", "run", 13) /\
  split_char nl (todos_section crowded) =
    ("**TODO/FIXME Comments: " ++ str (List.length (todos crowded)) ++ "**") ::
    "" ::
    List.app (map todo_line (todos_shown crowded))
      (List.app
         (if List.length (todos crowded) <=? 20 then []
          else [""; "... and " ++ str (List.length (todos crowded) - 10) ++
                    " more"])
         [""; "**Action**: Convert TODOs to GitHub Issues"; ""; ""]).
Proof.
  assert (Hl : large_files crowded <> []) by (vm_compute; discriminate).
  assert (Hc : complex_functions crowded <> []) by (vm_compute; discriminate).
  assert (Ht : todos crowded <> []) by (vm_compute; discriminate).
  assert (Ol : Forall (fun x => one_line (fst x) = true) (large_files crowded))
    by (vm_compute; repeat constructor).
  assert (Oc : Forall
                 (fun x => one_line (fst (fst x)) = true /\
                           one_line (snd (fst x)) = true)
                 (complex_functions crowded))
    by (vm_compute; repeat constructor).
  assert (Ot : Forall (fun todo => one_line todo = true) (todos crowded))
    by (vm_compute; repeat constructor).
  pose proof (C3_list_sections_show Samples.morning crowded)
    as (_ & _ & (_ & L1 & L2 & _ & L3 & _) & (_ & C1 & C2 & _ & C3 & _) &
        (_ & T1 & _)).
  exact (conj (L1 Hl Ol)
          (conj (L2 Ol _ ltac:(vm_compute; do 2 right; left; reflexivity))
             (conj (C1 Hc Oc)
                (conj (C2 Oc _ ltac:(vm_compute; do 2 right; left; reflexivity))
                   (conj (L3 ("m2.py", 502) ("m1.py", 501)
                            ltac:(vm_compute; do 9 right; left; reflexivity)
                            ltac:(vm_compute; left; reflexivity))
                      (conj (C3 ("m3.py", "run", 13) ("m1.py", "run", 11)
                               ltac:(vm_compute; do 9 right; left; reflexivity)
                               ltac:(vm_compute; do 1 right; left; reflexivity))
                         (T1 Ht Ot))))))).
Defined.

(** C3, as stated: of eleven large files ten are listed and no line tells
    of the one left out; of eleven TODO comments all eleven are listed. *)
Lemma C3_counterexample :
  List.length (large_files (Samples.report_with Samples.eleven_large [])) = 11 /\
  List.length (large_files_shown (Samples.report_with Samples.eleven_large [])) = 10 /\
  contains "more"
    (large_files_section (Samples.report_with Samples.eleven_large [])) = false /\
  List.length (todos_shown (Samples.report_with [] (Samples.some_todos 11))) = 11.
Proof. repeat split; vm_compute; reflexivity. Qed.

(** ** The tasks of a plan *)

Lemma first_some_in {A B : Type} (k : A -> option B) (l : list A) (y : B) :
  first_some k l = Some y -> exists x, In x l /\ k x = Some y.
Proof.
  induction l as [|x l IH]; simpl; [discriminate|].
  destruct (k x) as [y'|] eqn:E.
  - intros [= <-]. exists x. auto.
  - intros H. destruct (IH H) as (x' & Hin & Hk). exists x'. auto.
Qed.

Lemma star_all (c : ascii -> bool) (s : string) (p : string * string) :
  In p (star c s) -> all c (fst p) = true.
Proof.
  revert p. induction s as [|a s IH]; intros p H; simpl in H.
  - destruct H as [<-|[]]. reflexivity.
  - destruct (c a) eqn:Ea.
    + apply in_app_or in H. destruct H as [H|[<-|[]]]; [|reflexivity].
      unfold consume in H. apply in_map_iff in H. destruct H as (q & <- & Hq).
      simpl. rewrite Ea. now apply IH.
    + destruct H as [<-|[]]. reflexivity.
Qed.

Lemma plus_all (c : ascii -> bool) (s : string) (p : string * string) :
  In p (plus c s) -> fst p <> "" /\ all c (fst p) = true.
Proof.
  destruct s as [|a s]; simpl; [tauto|].
  destruct (c a) eqn:Ea; [|simpl; tauto].
  unfold consume. intros H. apply in_map_iff in H. destruct H as (q & <- & Hq).
  simpl. split; [discriminate|]. rewrite Ea. now apply (star_all c s).
Qed.

Lemma task_pattern_id (s : string) (task_id block rest : string) :
  task_pattern s = Some ((task_id, block), rest) ->
  task_id <> "" /\ all isdigit task_id = true.
Proof.
  unfold task_pattern, bind. intros H.
  destruct (lit "####" s) as [s1|]; [|discriminate].
  apply first_some_in in H. destruct H as ([w1 s2] & _ & H).
  destruct (lit "TASK-" s2) as [s3|]; [|discriminate].
  apply first_some_in in H. destruct H as ([d s4] & Hd & H).
  destruct (lit ":" s4) as [s5|]; [|discriminate].
  apply first_some_in in H. destruct H as ([w2 s6] & _ & H).
  apply first_some_in in H. destruct H as ([b s7] & _ & H).
  unfold block_stop in H. destruct (block_end (snd (b, s7))); [|discriminate].
  injection H as <- _ _. apply (plus_all isdigit s3 (d, s4) Hd).
Qed.

Lemma finditer_from_values {A : Type} (m : matcher A) (Q : A -> Prop) :
  (forall s v rest, m s = Some (v, rest) -> Q v) ->
  forall s skip, Forall (fun found => Q (snd found)) (finditer_from m s skip).
Proof.
  intros Hm. induction s as [|a s IH]; intros skip.
  - destruct skip; simpl; [|constructor].
    destruct (m "") as [[v rest]|] eqn:E; constructor; [|constructor].
    apply (Hm _ _ _ E).
  - destruct skip as [|k]; simpl; [|apply IH].
    destruct (m (String a s)) as [[v rest]|] eqn:E; [|apply IH].
    constructor; [apply (Hm _ _ _ E)|apply IH].
Qed.

(** X9. The identifier of every task of a parsed plan is [TASK-] followed
    by one decimal digit or more, those of its heading. *)
Theorem X9_task_ids_are_numbered (content : string) (task : Task) :
  In task (parse_refactor_plan content) ->
  exists digits,
    id task = "TASK-" ++ digits /\ digits <> "" /\ all isdigit digits = true.
Proof.
  unfold parse_refactor_plan, finditer. intros H.
  apply in_map_iff in H. destruct H as ([from_start [task_id block]] & <- & Hin).
  pose proof (finditer_from_values task_pattern
                (fun v => fst v <> "" /\ all isdigit (fst v) = true)) as HF.
  assert (Hm : forall s v rest, task_pattern s = Some (v, rest) ->
                 fst v <> "" /\ all isdigit (fst v) = true).
  { intros s [i b] rest E. apply (task_pattern_id s i b rest E). }
  specialize (HF Hm content 0). rewrite Forall_forall in HF.
  specialize (HF _ Hin). cbn [fst snd] in *.
  exists task_id. split; [reflexivity|exact HF].
Qed.

Lemma X9_witness :
  exists digits,
    "TASK-001" = "TASK-" ++ digits /\ digits <> "" /\ all isdigit digits = true.
Proof.
  apply (X9_task_ids_are_numbered Samples.plan_one
           (parse_task "001"
              ("Add tests" ++ NL ++ NL ++ "Cover the billing module first." ++
               NL ++ "**Priority**: High"))).
  vm_compute. left. reflexivity.
Defined.





(** ** The fields of a task *)

Lemma star_run_stops (c : ascii -> bool) (d rest : string) :
  all c d = true -> stops c rest = true ->
  exists l, star c (d ++ rest) = (d, rest) :: l.
Proof.
  intros Hd Hr. induction d as [|b d IH]; simpl.
  - destruct rest as [|a rest]; [now exists []|].
    simpl in Hr. apply negb_true_iff in Hr. simpl. rewrite Hr. now exists [].
  - simpl in Hd. apply andb_true_iff in Hd. destruct Hd as [Hb Hd].
    rewrite Hb. destruct (IH Hd) as [l E]. rewrite E. simpl. eauto.
Qed.

Lemma plus_run_stops (c : ascii -> bool) (d rest : string) :
  d <> "" -> all c d = true -> stops c rest = true ->
  exists l, plus c (d ++ rest) = (d, rest) :: l.
Proof.
  intros Hne Hd Hr. destruct d as [|b d]; [congruence|].
  simpl in *. apply andb_true_iff in Hd. destruct Hd as [Hb Hd].
  rewrite Hb. destruct (star_run_stops c d rest Hd Hr) as [l E]. rewrite E.
  simpl. eauto.
Qed.

Lemma word_not_space (a : ascii) : isword a = true -> isspace a = false.
Proof.
  destruct a as [[] [] [] [] [] [] [] []]; vm_compute; intros H;
    first [reflexivity|discriminate].
Qed.

Lemma search_here {A : Type} (m : matcher A) (s : string) (v : A) (rest : string) :
  m s = Some (v, rest) -> search m s = Some v.
Proof. intros H. destruct s; simpl; now rewrite H. Qed.

(** A search passes over a text without asterisk when every match opens
    with one. *)
Lemma search_after_plain {A : Type} (m : matcher A) (pre s : string) :
  (forall s x, m s = Some x -> startswith "*" s = true) ->
  all nostar pre = true -> search m (pre ++ s) = search m s.
Proof.
  intros Hm. induction pre as [|a pre IH]; intros H; [reflexivity|].
  simpl in H. apply andb_true_iff in H. destruct H as [Ha Hp].
  change (String a pre ++ s) with (String a (pre ++ s)). cbn [search].
  destruct (m (String a (pre ++ s))) as [[v r]|] eqn:E; [|now apply IH].
  apply Hm in E. apply startswith_cons in E. destruct E as [<- _].
  discriminate.
Qed.

Lemma starts_with_star (label s : string) :
  startswith ("*" ++ label) s = true -> startswith "*" s = true.
Proof.
  destruct s as [|a s]; [discriminate|]. intros H.
  change ("*" ++ label) with (String "*" label) in H.
  apply startswith_cons in H. destruct H as [<- _].
  apply startswith_cons. split; [reflexivity|apply startswith_nil].
Qed.

Lemma word_field_value (label ws word rest : string) :
  ws <> "" -> all isspace ws = true ->
  word <> "" -> all isword word = true -> stops isword rest = true ->
  word_field label (label ++ ws ++ word ++ rest) = Some (word, rest).
Proof.
  intros Hws1 Hws2 Hw1 Hw2 Hr. unfold word_field. rewrite lit_app. cbn [bind].
  assert (Hs : stops isspace (word ++ rest) = true).
  { destruct word as [|b word]; [congruence|]. simpl in *.
    apply andb_true_iff in Hw2. destruct Hw2 as [Hb _].
    now rewrite (word_not_space b Hb). }
  destruct (plus_run_stops isspace ws (word ++ rest) Hws1 Hws2 Hs) as [l E].
  rewrite E. erewrite first_some_head; [reflexivity|]. cbn beta iota.
  destruct (plus_run_stops isword word rest Hw1 Hw2 Hr) as [l' E'].
  rewrite E'. reflexivity.
Qed.

Lemma line_field_value (label ws line rest : string) :
  ws <> "" -> all isspace ws = true ->
  line <> "" -> all notnl line = true -> stops isspace line = true ->
  stops notnl rest = true ->
  line_field label (label ++ ws ++ line ++ rest) = Some (line, rest).
Proof.
  intros Hws1 Hws2 Hl1 Hl2 Hl3 Hr. unfold line_field. rewrite lit_app. cbn [bind].
  assert (Hs : stops isspace (line ++ rest) = true).
  { destruct line as [|b line]; [congruence|]. exact Hl3. }
  destruct (plus_run_stops isspace ws (line ++ rest) Hws1 Hws2 Hs) as [l E].
  rewrite E. erewrite first_some_head; [reflexivity|]. cbn beta iota.
  destruct (plus_run_stops notnl line rest Hl1 Hl2 Hr) as [l' E'].
  rewrite E'. reflexivity.
Qed.

(** X11. The priority and the risk of a task are the first word after
    the label and the blanks that follow it, in lower case, for the first
    label of the block: what follows the word on the line is left out. *)
Theorem X11_priority_and_risk_are_the_first_word
    (task_id pre ws word rest : string) :
  all nostar pre = true ->
  ws <> "" -> all isspace ws = true ->
  word <> "" -> all isword word = true -> stops isword rest = true ->
  priority (parse_task task_id (pre ++ "**Priority**:" ++ ws ++ word ++ rest)) =
    lower word /\
  risk (parse_task task_id (pre ++ "**Risk**:" ++ ws ++ word ++ rest)) =
    lower word.
Proof.
  intros Hpre Hws1 Hws2 Hw1 Hw2 Hr. unfold parse_task. cbn [priority risk].
  unfold extract. split.
  - rewrite (search_after_plain (word_field "**Priority**:") pre _
               (fun s x H => starts_with_star _ s (word_field_starts _ s x H)) Hpre).
    now rewrite (search_here _ _ _ _
                   (word_field_value "**Priority**:" ws word rest
                      Hws1 Hws2 Hw1 Hw2 Hr)).
  - rewrite (search_after_plain (word_field "**Risk**:") pre _
               (fun s x H => starts_with_star _ s (word_field_starts _ s x H)) Hpre).
    now rewrite (search_here _ _ _ _
                   (word_field_value "**Risk**:" ws word rest
                      Hws1 Hws2 Hw1 Hw2 Hr)).
Qed.

Lemma X11_witness :
  priority
    (parse_task "4"
       (("Tidy the views" ++ NL) ++ "**Priority**:" ++ " " ++ "High" ++
        (" (this sprint)" ++ NL))) = lower "High" /\
  risk
    (parse_task "4"
       (("Tidy the views" ++ NL) ++ "**Risk**:" ++ " " ++ "High" ++
        (" (this sprint)" ++ NL))) = lower "High".
Proof.
  apply (X11_priority_and_risk_are_the_first_word
           "4" ("Tidy the views" ++ NL) " " "High" (" (this sprint)" ++ NL));
    first [reflexivity|discriminate].
Defined.

(** X12. The effort and the dependencies of a task are the rest of the
    line after the label and the blanks that follow it, stripped, for the
    first label of the block. *)
Theorem X12_effort_and_dependencies_are_the_rest_of_the_line
    (task_id pre ws line rest : string) :
  all nostar pre = true ->
  ws <> "" -> all isspace ws = true ->
  line <> "" -> all notnl line = true -> stops isspace line = true ->
  stops notnl rest = true ->
  effort (parse_task task_id (pre ++ "**Effort**:" ++ ws ++ line ++ rest)) =
    strip line /\
  dependencies
    (parse_task task_id (pre ++ "**Dependencies**:" ++ ws ++ line ++ rest)) =
    strip line.
Proof.
  intros Hpre Hws1 Hws2 Hl1 Hl2 Hl3 Hr. unfold parse_task.
  cbn [effort dependencies]. unfold extract. split.
  - rewrite (search_after_plain (line_field "**Effort**:") pre _
               (fun s x H => starts_with_star _ s (line_field_starts _ s x H)) Hpre).
    now rewrite (search_here _ _ _ _
                   (line_field_value "**Effort**:" ws line rest
                      Hws1 Hws2 Hl1 Hl2 Hl3 Hr)).
  - rewrite (search_after_plain (line_field "**Dependencies**:") pre _
               (fun s x H => starts_with_star _ s (line_field_starts _ s x H)) Hpre).
    now rewrite (search_here _ _ _ _
                   (line_field_value "**Dependencies**:" ws line rest
                      Hws1 Hws2 Hl1 Hl2 Hl3 Hr)).
Qed.

Lemma X12_witness :
  effort
    (parse_task "4"
       (("Tidy the views" ++ NL) ++ "**Effort**:" ++ " " ++ "2 days  " ++
        (NL ++ "and more" ++ NL))) = strip "2 days  " /\
  dependencies
    (parse_task "4"
       (("Tidy the views" ++ NL) ++ "**Dependencies**:" ++ " " ++ "2 days  " ++
        (NL ++ "and more" ++ NL))) = strip "2 days  ".
Proof.
  apply (X12_effort_and_dependencies_are_the_rest_of_the_line
           "4" ("Tidy the views" ++ NL) " " "2 days  " (NL ++ "and more" ++ NL));
    first [reflexivity|discriminate].
Defined.

(** ** The outcome of a run *)

Lemma successes_when_all_filed (l : list (Task * Outcome)) :
  failures l = [] -> existsb is_other (map snd l) = false ->
  map fst (successes l) = map id (map fst l).
Proof.
  induction l as [|[task o] l IH]; [reflexivity|].
  unfold failures, successes in *. cbn [flat_map fst snd map existsb].
  destruct o as [number|message|message]; [|discriminate|discriminate].
  cbn [List.app map fst is_other orb]. intros H H'. now rewrite (IH H H').
Qed.

(** X13. A run that ends with 0 has filed an issue for every task of the
    plan, in the order of the plan: the tasks reported as created are the
    tasks of the plan, none is reported as failed, and the plan held a
    task. *)
Theorem X13_exit_zero_means_every_task_filed
    (Tracker : Type) (create_issue : Tracker -> IssueRequest -> Outcome * Tracker)
    (plan : PlanFile) (connect : Setup Tracker) :
  let run := main Tracker create_issue plan connect in
  exit_code run = 0 ->
  exists content,
    plan = Readable content /\
    parse_refactor_plan content <> [] /\
    map fst (created_issues run) = map id (parse_refactor_plan content) /\
    failed_issues run = [] /\
    requests run = map issue_request (parse_refactor_plan content).
Proof.
  cbn zeta. unfold main.
  destruct plan as [| |content]; [discriminate|discriminate|].
  destruct (parse_refactor_plan content) as [|task tasks] eqn:Et; [discriminate|].
  destruct connect as [a| |]; [|discriminate|discriminate].
  cbn [exit_code created_issues failed_issues requests].
  destruct (publish_loop Tracker create_issue (task :: tasks)
              {| api := a; created := []; failed := []; sent := [];
                 raised := false |} eq_refl)
    as (E1 & E2 & E3 & E4).
  fold (publish_all Tracker create_issue a (task :: tasks)) in E1, E2, E3, E4.
  cbn [api created failed sent List.app] in E1, E2, E3, E4.
  intros H. exists content. rewrite Et.
  split; [reflexivity|]. split; [discriminate|].
  destruct (raised Tracker (publish_all Tracker create_issue a (task :: tasks)))
    eqn:Er; [discriminate|].
  destruct (failed Tracker (publish_all Tracker create_issue a (task :: tasks)))
    as [|x l] eqn:Ef; [|discriminate].
  rewrite E2, E1. symmetry in E3, E4.
  rewrite (successes_when_all_filed _ E3 E4), (outcomes_tasks _ _ _ _ E4). auto.
Qed.

Lemma X13_witness :
  map fst (created_issues
             (main nat file_all (Readable Samples.plan_three) (Client 0))) =
  ["TASK-1"; "TASK-2"; "TASK-3"].
Proof.
  pose proof (X13_exit_zero_means_every_task_filed nat file_all
                (Readable Samples.plan_three) (Client 0) eq_refl) as H.
  cbn zeta in H. destruct H as (content & E & _ & H & _).
  injection E as <-. rewrite H. vm_compute. reflexivity.
Defined.

(** ** The case of priority and risk *)

Lemma upper_lower_char (a : ascii) :
  isascii a = true -> upper_char (lower_char a) = upper_char a.
Proof.
  destruct a as [[] [] [] [] [] [] [] []]; vm_compute; intros H;
    first [reflexivity|discriminate].
Qed.

Lemma upper_lower (s : string) :
  all isascii s = true -> upper (lower s) = upper s.
Proof.
  unfold upper, lower. induction s as [|a s IH]; simpl; [reflexivity|].
  intros H. apply andb_true_iff in H. destruct H as [Ha Hs].
  now rewrite (upper_lower_char a Ha), (IH Hs).
Qed.

(** X14. The request for a task whose priority and risk are ASCII text
    does not depend on the case of their letters: two such tasks that
    differ in that case only get the same title, body and labels. *)
Theorem X14_request_ignores_case_of_priority_and_risk (task task' : Task) :
  all isascii (priority task) = true -> all isascii (priority task') = true ->
  all isascii (risk task) = true -> all isascii (risk task') = true ->
  id task = id task' -> title task = title task' ->
  effort task = effort task' -> what task = what task' ->
  why task = why task' -> criteria task = criteria task' ->
  dependencies task = dependencies task' ->
  lower (priority task) = lower (priority task') ->
  lower (risk task) = lower (risk task') ->
  issue_request task = issue_request task'.
Proof.
  destruct task as [i t p r e wt wy c d], task' as [i' t' p' r' e' wt' wy' c' d'].
  cbn [id title priority risk effort what why criteria dependencies].
  intros Ap Ap' Ar Ar' <- <- <- <- <- <- <- Hp Hr.
  unfold issue_request, create_issue_body, issue_labels, get_priority_label.
  cbn [id title priority risk effort what why criteria dependencies].
  rewrite <- (upper_lower p Ap), <- (upper_lower r Ar), Hp, Hr.
  now rewrite (upper_lower p' Ap'), (upper_lower r' Ar').
Qed.

Lemma X14_witness : issue_request Samples.shouting = issue_request quiet.
Proof.
  apply X14_request_ignores_case_of_priority_and_risk; reflexivity.
Defined.

(** ** The list items of a block field *)

Lemma list_item_first {B : Type} (text more : string)
    (k : string * string -> option B) (y : B) :
  text <> "" -> all notnl text = true ->
  k ("- " ++ text ++ NL, more) = Some y ->
  list_item ("- " ++ text ++ NL ++ more) k = Some y.
Proof.
  intros Hne Hnl Hk. unfold list_item. rewrite lit_app. cbn [bind].
  destruct (plus_run_stops notnl text (NL ++ more) Hne Hnl eq_refl) as [l E].
  rewrite E. erewrite first_some_head; [reflexivity|]. cbn beta iota.
  unfold opt. rewrite lit_app. cbn [first_some]. now rewrite Hk.
Qed.

Lemma plus_group_stops {B : Type} (fuel : nat) (acc rest : string)
    (k : string * string -> option B) :
  startswith "- " rest = false -> plus_group fuel list_item acc rest k = None.
Proof.
  intros H. destruct fuel as [|f]; [reflexivity|].
  cbn [plus_group]. unfold list_item, bind, lit. now rewrite H.
Qed.

Lemma item_lines_cons (text : string) (items : list string) :
  item_lines (text :: items) = ("- " ++ text ++ NL) ++ item_lines items.
Proof. unfold item_lines. cbn [map]. apply concat_cons. Qed.

Lemma plus_group_items (items : list string) :
  forall fuel acc rest,
    items <> [] ->
    Forall (fun text => text <> "" /\ all notnl text = true) items ->
    List.length items <= fuel ->
    startswith "- " rest = false ->
    plus_group fuel list_item acc (item_lines items ++ rest) (fun m => Some m) =
    Some (acc ++ item_lines items, rest).
Proof.
  induction items as [|text items IH]; intros fuel acc rest Hne Hall Hf Hr;
    [congruence|].
  destruct fuel as [|f]; [simpl in Hf; lia|].
  inversion Hall as [|x l [Ht1 Ht2] Hall' E]; subst.
  cbn [plus_group]. rewrite item_lines_cons, !app_assoc.
  apply list_item_first; [exact Ht1|exact Ht2|].
  destruct items as [|text' items'].
  - change (item_lines []) with "". cbn [String.append].
    rewrite (plus_group_stops f _ rest _ Hr), app_nil_r. reflexivity.
  - rewrite (IH f (acc ++ "- " ++ text ++ NL) rest);
      [|discriminate|exact Hall'|simpl in *; lia|exact Hr].
    now rewrite !app_assoc.
Qed.

Lemma item_lines_long (items : list string) :
  List.length items <= String.length (item_lines items).
Proof.
  induction items as [|text items IH]; [simpl; lia|].
  rewrite item_lines_cons, length_app. simpl. lia.
Qed.

Lemma block_field_items (label : string) (items : list string) (rest : string) :
  items <> [] ->
  Forall (fun text => text <> "" /\ all notnl text = true) items ->
  startswith "- " rest = false ->
  block_field label list_item (label ++ NL ++ item_lines items ++ rest) =
  Some (item_lines items, rest).
Proof.
  intros Hne Hall Hr. unfold block_field. rewrite lit_app. cbn [bind].
  assert (Hshape : exists tail, item_lines items ++ rest = String "-" tail).
  { destruct items as [|text items]; [congruence|].
    rewrite item_lines_cons. simpl. eauto. }
  destruct Hshape as [tail Hshape].
  assert (Hstar : star isspace (NL ++ item_lines items ++ rest) =
                  [(NL, item_lines items ++ rest);
                   ("", NL ++ item_lines items ++ rest)])
    by (rewrite Hshape; reflexivity).
  assert (Hlit : lit NL (item_lines items ++ rest) = None)
    by (rewrite Hshape; reflexivity).
  rewrite Hstar. cbn [first_some]. rewrite Hlit, lit_app. cbn [bind].
  rewrite (plus_group_items items _ "" rest Hne Hall); [reflexivity| |exact Hr].
  rewrite length_app. pose proof (item_lines_long items). lia.
Qed.

(** X15. The [what] and the [why] of a task are the run of list items
    that follows the label line, up to the first line that is no list
    item, stripped; for the first label of the block. *)
Theorem X15_what_and_why_are_the_list_items
    (task_id pre : string) (items : list string) (rest : string) :
  all nostar pre = true ->
  items <> [] ->
  Forall (fun text => text <> "" /\ all notnl text = true) items ->
  startswith "- " rest = false ->
  what (parse_task task_id (pre ++ "**What**:" ++ NL ++ item_lines items ++ rest)) =
    strip (item_lines items) /\
  why (parse_task task_id (pre ++ "**Why**:" ++ NL ++ item_lines items ++ rest)) =
    strip (item_lines items).
Proof.
  intros Hpre Hne Hall Hr. unfold parse_task. cbn [what why]. unfold extract.
  split.
  - rewrite (search_after_plain (block_field "**What**:" list_item) pre _
               (fun s x H => starts_with_star _ s (block_field_starts _ _ s x H))
               Hpre).
    now rewrite (search_here _ _ _ _
                   (block_field_items "**What**:" items rest Hne Hall Hr)).
  - rewrite (search_after_plain (block_field "**Why**:" list_item) pre _
               (fun s x H => starts_with_star _ s (block_field_starts _ _ s x H))
               Hpre).
    now rewrite (search_here _ _ _ _
                   (block_field_items "**Why**:" items rest Hne Hall Hr)).
Qed.

Lemma X15_witness :
  what
    (parse_task "4"
       (("Tidy the views" ++ NL) ++ "**What**:" ++ NL ++
        item_lines ["move the forms"; "move the filters"] ++
        (NL ++ "- a later item" ++ NL))) =
  strip (item_lines ["move the forms"; "move the filters"]).
Proof.
  apply (X15_what_and_why_are_the_list_items
           "4" ("Tidy the views" ++ NL) ["move the forms"; "move the filters"]
           (NL ++ "- a later item" ++ NL)).
  - reflexivity.
  - discriminate.
  - repeat constructor; discriminate.
  - reflexivity.
Defined.

(** ** Counting the lines *)

Lemma file_lines_nil (s : string) : file_lines s = [] -> s = "".
Proof.
  destruct s as [|a s]; [reflexivity|]. simpl.
  destruct (Ascii.eqb a nl); [discriminate|].
  destruct (file_lines s); discriminate.
Qed.

Lemma count_newlines_cons (a : ascii) (s : string) :
  count NL (String a s) = (if Ascii.eqb a nl then 1 else 0) + count NL s.
Proof.
  unfold count, NL. cbn [count_from String.length Nat.sub].
  unfold startswith. cbn [String.prefix].
  destruct (ascii_dec nl a) as [<-|Hn].
  - rewrite Ascii.eqb_refl. now destruct s.
  - destruct (Ascii.eqb a nl) eqn:E; [|reflexivity].
    apply Ascii.eqb_eq in E. congruence.
Qed.

(** X16. The number of lines of a file that can be read is the number of
    its newlines, and one more when its last line is not ended by a
    newline; an empty file has no line, and a file that cannot be read
    counts as 0 lines. *)
Theorem X16_lines_are_newlines_and_open_last_line (e : Entry) :
  count_lines e =
  match content e with
  | Some text => count NL text + (if unterminated text then 1 else 0)
  | None => 0
  end.
Proof.
  unfold count_lines. destruct (content e) as [text|]; [|reflexivity].
  induction text as [|a text IH]; [reflexivity|].
  rewrite count_newlines_cons. cbn [file_lines].
  destruct (Ascii.eqb a nl) eqn:Ea.
  - cbn [List.length]. rewrite IH.
    destruct text as [|b text]; [simpl; now rewrite Ea|reflexivity].
  - destruct (file_lines text) as [|l ls] eqn:El.
    + apply file_lines_nil in El. subst text. simpl. now rewrite Ea.
    + cbn [List.length] in *. rewrite IH.
      destruct text as [|b text]; [discriminate|reflexivity].
Qed.

Example lines_of_small_files :
  count_lines (Samples.file ["a.py"] "") = 0 /\
  count_lines (Samples.file ["a.py"] ("x = 1" ++ NL)) = 1 /\
  count_lines (Samples.file ["a.py"] ("x = 1" ++ NL ++ "y = 2")) = 2.
Proof. repeat split. Qed.

(** ** Every task block of a plan *)

Lemma lit_split (p s r : string) : lit p s = Some r -> s = p ++ r.
Proof.
  unfold lit. destruct (startswith p s) eqn:E; [|discriminate].
  intros [= <-]. unfold startswith in E. revert s E.
  induction p as [|a p IH]; intros s E; [now destruct s|].
  destruct s as [|b s]; simpl in E; [discriminate|].
  destruct (ascii_dec a b) as [<-|]; [|discriminate].
  simpl. f_equal. now apply IH.
Qed.

Lemma star_split (c : ascii -> bool) (s : string) (p : string * string) :
  In p (star c s) -> s = fst p ++ snd p.
Proof.
  revert p. induction s as [|a s IH]; intros p H; simpl in H.
  - destruct H as [<-|[]]. reflexivity.
  - destruct (c a).
    + apply in_app_or in H. destruct H as [H|[<-|[]]]; [|reflexivity].
      unfold consume in H. apply in_map_iff in H. destruct H as (q & <- & Hq).
      simpl. f_equal. now apply IH.
    + destruct H as [<-|[]]. reflexivity.
Qed.

Lemma plus_split (c : ascii -> bool) (s : string) (p : string * string) :
  In p (plus c s) -> s = fst p ++ snd p.
Proof.
  destruct s as [|a s]; simpl; [tauto|].
  destruct (c a); [|simpl; tauto].
  unfold consume. intros H. apply in_map_iff in H. destruct H as (q & <- & Hq).
  simpl. f_equal. now apply star_split in Hq.
Qed.

Lemma star_lazy_split (c : ascii -> bool) (s : string) (p : string * string) :
  In p (star_lazy c s) -> s = fst p ++ snd p.
Proof.
  revert p. induction s as [|a s IH]; intros p H; simpl in H.
  - destruct H as [<-|[]]. reflexivity.
  - destruct H as [<-|H]; [reflexivity|].
    destruct (c a); [|destruct H].
    unfold consume in H. apply in_map_iff in H. destruct H as (q & <- & Hq).
    simpl. f_equal. now apply IH.
Qed.

Lemma plus_lazy_split (c : ascii -> bool) (s : string) (p : string * string) :
  In p (plus_lazy c s) -> s = fst p ++ snd p /\ fst p <> "".
Proof.
  destruct s as [|a s]; simpl; [tauto|].
  destruct (c a); [|simpl; tauto].
  unfold consume. intros H. apply in_map_iff in H. destruct H as (q & <- & Hq).
  simpl. split; [|discriminate]. f_equal. now apply star_lazy_split in Hq.
Qed.

(** A match of [task_pattern]: the marker, blanks, [TASK-], the digits,
    the colon, blanks, and then the group of the block, up to where the
    lookahead holds. *)
Lemma task_pattern_parts (s task_id block after : string) :
  task_pattern s = Some ((task_id, block), after) ->
  exists ws1 ws2,
    s = "####" ++ ws1 ++ "TASK-" ++ task_id ++ ":" ++ ws2 ++ block ++ after /\
    ws1 <> "" /\ all isspace ws1 = true /\
    ws2 <> "" /\ all isspace ws2 = true /\
    block <> "" /\ block_end after = true.
Proof.
  unfold task_pattern, bind. intros H.
  destruct (lit "####" s) as [s1|] eqn:L1; [|discriminate].
  apply first_some_in in H. destruct H as ([w1 s2] & H1 & H).
  destruct (lit "TASK-" s2) as [s3|] eqn:L2; [|discriminate].
  apply first_some_in in H. destruct H as ([d s4] & H2 & H).
  destruct (lit ":" s4) as [s5|] eqn:L3; [|discriminate].
  apply first_some_in in H. destruct H as ([w2 s6] & H3 & H).
  apply first_some_in in H. destruct H as ([b s7] & H4 & H).
  unfold block_stop in H. cbn [fst snd] in H.
  destruct (block_end s7) eqn:Hend; [|discriminate].
  injection H as <- <- <-.
  apply lit_split in L1, L2, L3.
  pose proof (plus_split _ _ _ H1) as S1. pose proof (plus_all _ _ _ H1) as [N1 A1].
  pose proof (plus_split _ _ _ H2) as S2.
  pose proof (plus_split _ _ _ H3) as S3. pose proof (plus_all _ _ _ H3) as [N3 A3].
  pose proof (plus_lazy_split _ _ _ H4) as [S4 N4].
  cbn [fst snd] in *.
  exists w1, w2. subst. repeat split; auto.
Qed.

Lemma finditer_from_found {A : Type} (m : matcher A) (s : string) (skip : nat) :
  Forall
    (fun found =>
       (exists rest, m (fst found) = Some (snd found, rest)) /\
       (exists before, s = before ++ fst found))
    (finditer_from m s skip).
Proof.
  revert skip. induction s as [|a s IH]; intros skip.
  - destruct skip; simpl; [|constructor].
    destruct (m "") as [[v rest]|] eqn:E; constructor; [|constructor].
    cbn [fst snd]. split; [eauto|now exists ""].
  - assert (Htail : forall k,
              Forall
                (fun found =>
                   (exists rest, m (fst found) = Some (snd found, rest)) /\
                   (exists before, String a s = before ++ fst found))
                (finditer_from m s k)).
    { intros k. eapply Forall_impl; [|apply (IH k)].
      intros found [H1 [before H2]]. split; [exact H1|].
      exists (String a before). simpl. now rewrite <- H2. }
    destruct skip as [|k]; simpl; [|apply Htail].
    destruct (m (String a s)) as [[v rest]|] eqn:E; [|apply Htail].
    constructor; [|apply Htail].
    cbn [fst snd]. split; [eauto|now exists ""].
Qed.

(** C4. For every task block that the parser recognizes, wherever its
    heading stands in the plan, the group that [task_pattern] captures
    opens right after [TASK-<digits>:] and the blanks that follow it, on
    the heading line itself, and the title is the first line of that
    group, stripped: for a heading [#### TASK-<digits>: <text>] the
    title is [<text>], the rest of the heading line, whatever the lines
    after it. *)
Theorem C4_title_is_rest_of_heading_line
    (content from_heading task_id block : string) :
  In (from_heading, (task_id, block)) (finditer task_pattern content) ->
  In (parse_task task_id block) (parse_refactor_plan content) /\
  (exists before, content = before ++ from_heading) /\
  (exists ws1 ws2 after,
     from_heading =
       "####" ++ ws1 ++ "TASK-" ++ task_id ++ ":" ++ ws2 ++ block ++ after /\
     ws1 <> "" /\ all isspace ws1 = true /\
     ws2 <> "" /\ all isspace ws2 = true /\
     block <> "" /\ block_end after = true) /\
  title (parse_task task_id block) =
    strip (item0 (split_char nl (strip block))) /\
  (forall digits c rest body,
     from_heading =
       "#### TASK-" ++ digits ++ ": " ++ String c rest ++ NL ++ body ->
     digits <> "" -> all isdigit digits = true ->
     isspace c = false -> all notnl (String c rest) = true ->
     contains "####" (String c rest) = false ->
     task_id = digits /\
     title (parse_task task_id block) = strip (String c rest)).
Proof.
  intros Hin.
  pose proof (finditer_from_found task_pattern content 0) as HF.
  rewrite Forall_forall in HF. destruct (HF _ Hin) as [[after Hm] Hbefore].
  cbn [fst snd] in Hm, Hbefore.
  split.
  { unfold parse_refactor_plan. apply in_map_iff.
    exists (from_heading, (task_id, block)). split; [reflexivity|exact Hin]. }
  split; [exact Hbefore|].
  split.
  { destruct (task_pattern_parts _ _ _ _ Hm) as (ws1 & ws2 & H).
    exists ws1, ws2, after. exact H. }
  split; [reflexivity|].
  intros digits c rest body -> Hne Hd Hc Hnl Hno.
  destruct (task_pattern_heading digits c rest body Hne Hd Hc Hno)
    as (g & r & E & Et).
  rewrite E in Hm. injection Hm as <- <- _.
  split; [reflexivity|].
  apply title_of_block; [exact Hc|exact Hnl|].
  destruct g as [|b g']; [now left|right].
  simpl in Et. injection Et as -> _. eauto.
Qed.

Lemma C4_witness :
  "001" = "001" /\
  title
    (parse_task "001"
       ("Add tests" ++ NL ++ NL ++ "Cover the billing module first." ++ NL ++
        "**Priority**: High")) =
  strip (String "A" "dd tests").
Proof.
  assert (Hin : In ("#### TASK-" ++ "001" ++ ": " ++ String "A" "dd tests" ++ NL ++
                    (NL ++ "Cover the billing module first." ++ NL ++
                     "**Priority**: High" ++ NL),
                    ("001",
                     "Add tests" ++ NL ++ NL ++
                     "Cover the billing module first." ++ NL ++
                     "**Priority**: High"))
                   (finditer task_pattern Samples.plan_one))
    by (vm_compute; left; reflexivity).
  apply (proj2 (proj2 (proj2 (proj2
           (C4_title_is_rest_of_heading_line _ _ _ _ Hin))))
           "001" "A"%char "dd tests"
           (NL ++ "Cover the billing module first." ++ NL ++
            "**Priority**: High" ++ NL));
    first [reflexivity|discriminate].
Defined.

(** ** The fields of a block, present and absent *)






(** *** Checkbox items *)









